(** * The scopes API of the OPAL server

    A shallow embedding of
    [packages/opal-server/opal_server/scopes/api.py]: the bearer-token
    dependency, the six route handlers registered by [setup_scopes_api],
    and the two loops over the scope registry (the periodic sweep and the
    GitHub push webhook).

    Python code is embedded in a state-and-exception monad.  A raised
    exception keeps the state reached so far, as in Python.  Every call
    that leaves [api.py] (scope store, pullers, git, bundle maker,
    publisher, signature validation) goes through a record of
    collaborators and is written to a call log, so that the order of the
    calls made by a handler can be observed. *)

From Stdlib Require Import String Ascii List ZArith Bool Lia.
From Stdlib Require Import Strings.Byte.
Import ListNotations.
Local Open Scope list_scope.
Local Open Scope string_scope.

Set Implicit Arguments.

(** ** Exceptions and results *)

(** The exception classes that [api.py] raises, catches or lets through.
    [OtherError] stands for any other exception class, by name (network
    and git errors of the collaborators). *)
Inductive exn : Type :=
| HTTPException (status_code : Z) (detail : option string)
| ScopeNotFound (scope_id : string)
| InvalidScopeSourceType (invalid_type : string)
| AttributeError (msg : string)
| ValueError (msg : string)
| AssertionError (msg : string)
| OtherError (name : string).

Inductive result (A : Type) : Type :=
| Return (a : A)
| Raise (e : exn).
Arguments Return {A} a.
Arguments Raise {A} e.

(** [fastapi.status] *)
Definition HTTP_200_OK : Z := 200.
Definition HTTP_201_CREATED : Z := 201.
Definition HTTP_400_BAD_REQUEST : Z := 400.
Definition HTTP_401_UNAUTHORIZED : Z := 401.
Definition HTTP_404_NOT_FOUND : Z := 404.
Definition HTTP_500_INTERNAL_SERVER_ERROR : Z := 500.

(** What the framework answers for the outcome of a route: the route's
    declared status code when the handler returns, the status of an
    [HTTPException], and 500 for any exception nobody handled. *)
Definition response_status {A : Type} (declared : Z) (r : result A) : Z :=
  match r with
  | Return _ => declared
  | Raise (HTTPException s _) => s
  | Raise _ => HTTP_500_INTERNAL_SERVER_ERROR
  end.

(** ** The monad of handlers *)

Module Py.
Section Monad.
Variable St : Type.

Definition M (A : Type) : Type := St -> result A * St.

Definition ret {A} (a : A) : M A := fun st => (Return a, st).

Definition raise {A} (e : exn) : M A := fun st => (Raise e, st).

Definition bind {A B} (m : M A) (k : A -> M B) : M B :=
  fun st =>
    match m st with
    | (Return a, st') => k a st'
    | (Raise e, st') => (Raise e, st')
    end.

(** [try: m  except <class>: h], where [h e = None] when [e] is not an
    instance of the class. *)
Definition try_except {A} (m : M A) (h : exn -> option (M A)) : M A :=
  fun st =>
    match m st with
    | (Return a, st') => (Return a, st')
    | (Raise e, st') =>
        match h e with
        | Some handler => handler st'
        | None => (Raise e, st')
        end
    end.

(** A pure computation that may raise. *)
Definition lift {A} (r : result A) : M A := fun st => (r, st).

(** [for x in xs: body x] *)
Fixpoint for_each {A} (xs : list A) (body : A -> M unit) : M unit :=
  match xs with
  | [] => ret tt
  | x :: rest => bind (body x) (fun _ => for_each rest body)
  end.
End Monad.
End Py.

Arguments Py.ret {St A} a.
Arguments Py.raise {St A} e.
Arguments Py.bind {St A B} m k.
Arguments Py.try_except {St A} m h.
Arguments Py.lift {St A} r.
Arguments Py.for_each {St A} xs body.

Declare Scope py_scope.
Delimit Scope py_scope with py.
Notation "x <- m ;; k" := (Py.bind m (fun x => k))
  (at level 100, m at next level, right associativity) : py_scope.
Notation "m ;;; k" := (Py.bind m (fun _ => k))
  (at level 100, right associativity) : py_scope.

(** ** Python and library primitives used by [api.py] *)

(** [str.partition(" ")]: the text before the first separator and the
    text after it; the whole string and [""] when there is none. *)
Fixpoint partition_space (s : string) : string * string :=
  match s with
  | EmptyString => (EmptyString, EmptyString)
  | String c rest =>
      if Ascii.eqb c " "%char then (EmptyString, rest)
      else let (a, b) := partition_space rest in (String c a, b)
  end.

(** [str.lower()] on one character.  Header values reach the handler
    decoded as latin-1, so a character is a code point below 256: the
    upper-case letters are A-Z and the letters from 192 to 222 except the
    multiplication sign 215, and each is 32 below its lower-case form. *)
Definition lower_char (c : ascii) : ascii :=
  let n := nat_of_ascii c in
  if ((65 <=? n) && (n <=? 90))%nat then ascii_of_nat (n + 32)
  else if ((192 <=? n) && (n <=? 222) && negb (n =? 215))%nat
       then ascii_of_nat (n + 32)
       else c.

Fixpoint lower (s : string) : string :=
  match s with
  | EmptyString => EmptyString
  | String c rest => String (lower_char c) (lower rest)
  end.

(** [fastapi.security.utils.get_authorization_scheme_param] *)
Definition get_authorization_scheme_param (authorization : option string)
  : string * string :=
  match authorization with
  | None => ("", "")
  | Some "" => ("", "")
  | Some v => partition_space v
  end.

Fixpoint ends_with_slash (s : string) : bool :=
  match s with
  | EmptyString => false
  | String c EmptyString => Ascii.eqb c "/"%char
  | String _ rest => ends_with_slash rest
  end.

(** [os.path.join(a, b)] on POSIX: an absolute [b] discards [a]. *)
Definition os_path_join (a b : string) : string :=
  if String.prefix "/" b then b
  else if (String.eqb a "" || ends_with_slash a)%bool then a ++ b
  else a ++ "/" ++ b.

(** [s] occurs inside [t]. *)
Definition contains (t s : string) : Prop :=
  exists pre post, t = pre ++ s ++ post.

Definition hex_digit (c : ascii) : option N :=
  let n := N_of_ascii c in
  if ((48 <=? n) && (n <=? 57))%N then Some (n - 48)%N
  else if ((97 <=? n) && (n <=? 102))%N then Some (n - 87)%N
  else if ((65 <=? n) && (n <=? 70))%N then Some (n - 55)%N
  else None.

(** ASCII whitespace as [bytes.fromhex] skips it. *)
Definition is_ascii_space (c : ascii) : bool :=
  let n := N_of_ascii c in
  ((n =? 32) || ((9 <=? n) && (n <=? 13)))%N.

(** [bytes.fromhex(s)]: two hexadecimal digits per byte, white space
    between bytes ignored, [ValueError] otherwise.  The text of the
    error is kept up to the position CPython appends to it
    ([... arg at position N]). *)
Fixpoint bytes_fromhex (s : string) : result (list byte) :=
  match s with
  | EmptyString => Return []
  | String c rest =>
      if is_ascii_space c then bytes_fromhex rest
      else
        match rest with
        | EmptyString =>
            Raise (ValueError "non-hexadecimal number found in fromhex() arg")
        | String d rest' =>
            match hex_digit c, hex_digit d with
            | Some hi, Some lo =>
                match bytes_fromhex rest' with
                | Return bs => Return (byte_of_ascii (ascii_of_N (16 * hi + lo)) :: bs)
                | Raise e => Raise e
                end
            | _, _ =>
                Raise (ValueError "non-hexadecimal number found in fromhex() arg")
            end
        end
  end.

(** [pathlib.Path(p)] as its parts: the text is cut at every [/], empty
    parts and [.] parts vanish, and an absolute path keeps its root as a
    first part; the root is [//] when the text starts with exactly two
    slashes and [/] otherwise. *)
Definition Path : Type := list string.

Fixpoint split_slash (s : string) (cur : string) : list string :=
  match s with
  | EmptyString => [cur]
  | String c rest =>
      if Ascii.eqb c "/"%char then cur :: split_slash rest ""
      else split_slash rest (cur ++ String c "")
  end.

Definition pathlib_Path (p : string) : Path :=
  let parts :=
    filter (fun seg => negb (String.eqb seg "" || String.eqb seg ".")%bool)
           (split_slash p "") in
  if String.prefix "///" p then "/" :: parts
  else if String.prefix "//" p then "//" :: parts
  else if String.prefix "/" p then "/" :: parts
  else parts.

(** [str(path)]: the parts joined by [/] after the root; the path
    without parts is [.]. *)
Fixpoint join_slash (parts : list string) : string :=
  match parts with
  | [] => ""
  | [part] => part
  | part :: rest => part ++ "/" ++ join_slash rest
  end.

Definition pathlib_str (p : Path) : string :=
  match p with
  | [] => "."
  | first :: rest =>
      if (String.eqb first "/" || String.eqb first "//")%bool
      then first ++ join_slash rest
      else join_slash p
  end.

Definition Path_eq_dec : forall a b : Path, {a = b} + {a <> b} :=
  list_eq_dec string_dec.

(** ** Data model *)

(** Modelled from the spec: [opal_common.schemas.data.DataSourceConfig]
    is not under src/; the data-source configuration is opaque to this
    API, which only hands it back. *)
Record DataSourceConfig : Type := { entries : list string }.

(** Modelled from the spec: [opal_common.schemas.scopes.Scope] is not
    under src/.  The fields are the attributes [api.py] reads
    ([scope_id], [policy.url], [policy.polling], [policy.directories],
    [policy.extensions], [policy.manifest], [data]) and the source type
    of the spec's selection config. *)
Record ScopePolicy : Type := {
  source_type : string;
  url : string;
  polling : bool;
  directories : list string;
  extensions : list string;
  manifest : string
}.

(** A scope: its identifier, its policy selection and its data-source
    configuration. *)
Record Scope : Type := {
  scope_id : string;
  policy : ScopePolicy;
  data : DataSourceConfig
}.

(** What [ScopeStore.all_scopes] yields.  [periodic_check] takes each
    element apart as a pair ([for scope_id, scope in scopes]) and
    [webhook_github] reads attributes of the element itself
    ([for scope in scopes: scope.policy.url]); an element is one of the
    two shapes the file uses. *)
Inductive scope_item : Type :=
| ScopeTuple (scope_id : string) (scope : Scope)
| ScopeObject (scope : Scope).

(** [scope_id, scope = item]: a pair unpacks; a [Scope] model iterates
    over its (three) fields and does not fit two targets. *)
Definition unpack_pair (item : scope_item) : result (string * Scope) :=
  match item with
  | ScopeTuple sid s => Return (sid, s)
  | ScopeObject _ => Raise (ValueError "too many values to unpack (expected 2)")
  end.

(** [item.policy] and [item.scope_id]: a tuple has neither attribute. *)
Definition getattr_policy (item : scope_item) : result ScopePolicy :=
  match item with
  | ScopeObject s => Return (policy s)
  | ScopeTuple _ _ =>
      Raise (AttributeError "'tuple' object has no attribute 'policy'")
  end.

Definition getattr_scope_id (item : scope_item) : result string :=
  match item with
  | ScopeObject s => Return (scope_id s)
  | ScopeTuple _ _ =>
      Raise (AttributeError "'tuple' object has no attribute 'scope_id'")
  end.

(** [git.Repo]: a handle on a working directory; what the directory
    holds belongs to the world. *)
Record Repo : Type := { working_dir : string }.

(** A [git.Commit] object: a repository and the binary sha of the
    commit. *)
Record Commit : Type := { commit_repo : Repo; binsha : list byte }.

(** [git.Commit(repo, binsha)]: the constructor of GitPython asserts that
    the binary sha has 20 bytes.  The text of the assertion is kept up
    to the value and the length GitPython appends to it
    ([..., got <sha>, len = N]). *)
Definition git_Commit (repo : Repo) (sha : list byte) : result Commit :=
  if Nat.eqb (length sha) 20
  then Return {| commit_repo := repo; binsha := sha |}
  else Raise (AssertionError "Require 20 byte binary sha").

(** The pub/sub endpoint handed to [setup_scopes_api], by name. *)
Record PubSubEndpoint : Type := { endpoint_name : string }.

(** The two publishers [api.py] builds: [ServerSideTopicPublisher(endpoint=,
    prefix=)] in the sweep and [setup_publisher_task(server_uri=,
    server_token=, prefix=)] in the webhook. *)

Inductive Publisher : Type :=
| ServerSideTopicPublisher (endpoint : PubSubEndpoint) (prefix : string)
| PublisherTask (server_uri : string) (server_token : string) (prefix : string).

(** Modelled from the spec: [opal_server.scopes.webhook.PushWebHook] is
    not under src/; the push payload carries the before and after commit
    identifiers and the URLs of the repository, the fields [api.py]
    reads. *)
Record Repository : Type := {
  clone_url : string;
  git_url : string;
  ssh_url : string
}.

(** The push payload. *)
Record PushWebHook : Type := {
  repository : Repository;
  before : string;
  after : string
}.

(** An inbound request: the headers the API reads and the raw body. *)
Record Request : Type := {
  authorization : option string;
  x_github_event : option string;
  x_hub_signature_256 : option string;
  raw_body : string
}.

(** [BundleMaker(repo, directories, extensions=, manifest_filename=)] *)
Record BundleMaker : Type := {
  bm_repo : Repo;
  bm_directories : list Path;
  bm_extensions : list string;
  bm_manifest_filename : string
}.

(** Modelled from the spec: [opal_common.schemas.policy.PolicyBundle] is
    not under src/.  A bundle has a hash, the hash of its base (absent
    for a full bundle), its file entries (path, content, deleted flag)
    and the manifest content when there is one. *)
Record FileEntry : Type := {
  file_path : Path;
  content : option string;
  is_deleted : bool
}.

(** The policy bundle. *)
Record PolicyBundle : Type := {
  hash : string;
  old_hash : option string;
  files : list FileEntry;
  manifest_content : option string
}.

(** Modelled from the spec: [opal_server_config] is not under src/; the
    settings [api.py] reads: the base directory of the clones, the
    configured bearer secret and the address and token of the
    publisher.  [BASE_DIR] is a [pathlib.Path] in the configuration;
    the field holds its text, [str(BASE_DIR)], which is what
    [os.path.join] reads of it. *)
Record Config : Type := {
  BASE_DIR : string;
  SCOPE_API_KEY : string;
  OPAL_WS_LOCAL_URL : string;
  OPAL_WS_TOKEN : string
}.

(** ** Calls to the collaborators *)

Inductive call : Type :=
| Call_get_scope (scope_id : string)
| Call_add_scope (scope : Scope)
| Call_all_scopes
| Call_pull_scope (scope_id : string)
| Call_create_puller (base_dir : string) (scope : Scope)
| Call_check (scope_id : string)
| Call_diff (scope_id : string)
| Call_pull (scope_id : string)
| Call_publish_changed_directories (old_commit new_commit : Commit)
                                   (publisher : Publisher)
| Call_validate_github_signature (request : Request)
                                 (signature : option string)
| Call_Repo (path : string)
| Call_make_bundle (maker : BundleMaker) (base_hash : option string).

(** The code [api.py] imports and calls, over a world [W] (registry,
    clones, upstream, transport) and a type [P] of pullers. *)
Record Collaborators (W P : Type) : Type := {
  store_get_scope : string -> W -> result Scope * W;
  store_add_scope : Scope -> W -> result unit * W;
  store_all_scopes : W -> result (list scope_item) * W;
  store_pull_scope : string -> W -> result unit * W;
  create_puller : string -> Scope -> W -> result P * W;
  puller_check : P -> W -> result bool * W;
  puller_diff : P -> W -> result (Commit * Commit) * W;
  puller_pull : P -> W -> result unit * W;
  publish_changed_directories :
    Commit -> Commit -> Publisher -> W -> result unit * W;
  validate_github_signature_or_throw :
    Request -> option string -> W -> result bool * W;
  git_Repo : string -> W -> result Repo * W;
  make_bundle : BundleMaker -> Repo -> option string -> W -> result PolicyBundle * W
}.

(** The state of a handler: the world and the calls made so far, oldest
    first. *)
Record state (W : Type) : Type := { world : W; calls : list call }.

Definition HandlerM (W : Type) : Type -> Type := Py.M (state W).

Definition invoke {W A : Type} (c : call) (op : W -> result A * W)
  : HandlerM W A :=
  fun st =>
    let (r, w') := op (world st) in
    (r, {| world := w'; calls := calls st ++ [c] |}).

Definition start {W : Type} (w : W) : state W := {| world := w; calls := [] |}.

(** ** [setup_scopes_api]: the dependency and the handlers *)

Section Api.
Variables W P : Type.
Variable C : Collaborators W P.
Variable opal_server_config : Config.
Variable pubsub_endpoint : PubSubEndpoint.

Local Open Scope py_scope.
Let M : Type -> Type := HandlerM W.

(** [str(opal_server_config.BASE_DIR / "scopes")]: the part [scopes]
    is added to the parts of the base directory. *)
Definition _get_base_dir : string :=
  pathlib_str (pathlib_Path (BASE_DIR opal_server_config) ++ ["scopes"])%list.

(** [not authorization]: [None] and the empty string are falsy. *)
Definition falsy (authorization : option string) : bool :=
  match authorization with
  | None => true
  | Some v => String.eqb v ""
  end.

Definition _check_scope_api_key (authorization : option string) : M unit :=
  if falsy authorization then
    Py.raise (HTTPException HTTP_401_UNAUTHORIZED None)
  else
    let (scheme, param) := get_authorization_scheme_param authorization in
    if (negb (String.eqb (lower scheme) "bearer")
        || negb (String.eqb param (SCOPE_API_KEY opal_server_config)))%bool
    then Py.raise (HTTPException HTTP_401_UNAUTHORIZED None)
    else Py.ret tt.

Definition get_scope (scope_id : string) : M Scope :=
  Py.try_except
    (scope <- invoke (Call_get_scope scope_id) (store_get_scope C scope_id) ;;
     Py.ret scope)
    (fun e =>
       match e with
       | ScopeNotFound _ =>
           Some (Py.raise (HTTPException HTTP_404_NOT_FOUND None))
       | _ => None
       end).

Definition add_scope (scope : Scope) : M unit :=
  Py.try_except
    (invoke (Call_add_scope scope) (store_add_scope C scope))
    (fun e =>
       match e with
       | InvalidScopeSourceType invalid_type =>
           Some (Py.raise
                   (HTTPException HTTP_400_BAD_REQUEST
                      (Some ("Invalid scope source type: " ++ invalid_type))))
       | _ => None
       end).

Definition get_scope_policy (scope_id' : string) (base_hash : option string)
  : M PolicyBundle :=
  scope <- invoke (Call_get_scope scope_id') (store_get_scope C scope_id') ;;
  let path := os_path_join _get_base_dir (scope_id scope) in
  repo <- invoke (Call_Repo path) (git_Repo C path) ;;
  let bundle_maker :=
    {| bm_repo := repo;
       bm_directories :=
         nodup Path_eq_dec (map pathlib_Path (directories (policy scope)));
       bm_extensions := extensions (policy scope);
       bm_manifest_filename := manifest (policy scope) |} in
  invoke (Call_make_bundle bundle_maker base_hash)
         (make_bundle C bundle_maker repo base_hash).

Definition get_scope_data_config (scope_id : string) : M DataSourceConfig :=
  scope <- invoke (Call_get_scope scope_id) (store_get_scope C scope_id) ;;
  Py.ret (data scope).

(** The body of the loop of [periodic_check]. *)
Definition periodic_check_body (item : scope_item) : M unit :=
  unpacked <- Py.lift (unpack_pair item) ;;
  let (_, scope) := unpacked : string * Scope in
  if negb (polling (policy scope)) then Py.ret tt
  else
    puller <- invoke (Call_create_puller _get_base_dir scope)
                     (create_puller C _get_base_dir scope) ;;
    changed <- invoke (Call_check (scope_id scope))
                      (puller_check C puller) ;;
    if changed : bool then
      range <- invoke (Call_diff (scope_id scope))
                      (puller_diff C puller) ;;
      let (old_commit, new_commit) := range : Commit * Commit in
      invoke (Call_pull (scope_id scope)) (puller_pull C puller) ;;;
      let publisher :=
        ServerSideTopicPublisher pubsub_endpoint (scope_id scope) in
      invoke (Call_publish_changed_directories old_commit new_commit publisher)
             (publish_changed_directories C old_commit new_commit publisher)
    else Py.ret tt.

Definition periodic_check : M unit :=
  scopes <- invoke Call_all_scopes (store_all_scopes C) ;;
  Py.for_each scopes periodic_check_body.

(** The body of the loop of [webhook_github]. *)
Definition webhook_github_body (push : PushWebHook) (urls : list string)
           (item : scope_item) : M unit :=
  item_policy <- Py.lift (getattr_policy item) ;;
  if existsb (fun u => String.eqb (url item_policy) u) urls then
    sid <- Py.lift (getattr_scope_id item) ;;
    invoke (Call_pull_scope sid) (store_pull_scope C sid) ;;;
    let path :=
      os_path_join (os_path_join (BASE_DIR opal_server_config) "scopes") sid in
    repository <- invoke (Call_Repo path) (git_Repo C path) ;;
    let publisher :=
      PublisherTask (OPAL_WS_LOCAL_URL opal_server_config)
                    (OPAL_WS_TOKEN opal_server_config) sid in
    old_sha <- Py.lift (bytes_fromhex (before push)) ;;
    old_commit <- Py.lift (git_Commit repository old_sha) ;;
    new_sha <- Py.lift (bytes_fromhex (after push)) ;;
    new_commit <- Py.lift (git_Commit repository new_sha) ;;
    invoke (Call_publish_changed_directories old_commit new_commit publisher)
           (publish_changed_directories C old_commit new_commit publisher)
  else Py.ret tt.

(** The handler answers [{'status': 'ok'}] on the early return and
    [None] after the loop. *)
Definition webhook_github (x_github_event x_hub_signature_256 : option string)
           (push : PushWebHook) (request : Request)
  : M (option (list (string * string))) :=
  if negb (match x_github_event with
           | Some ev => String.eqb ev "push"
           | None => false
           end)
  then Py.ret (Some [("status", "ok")])
  else
    invoke (Call_validate_github_signature request x_hub_signature_256)
           (validate_github_signature_or_throw C request x_hub_signature_256) ;;;
    scopes <- invoke Call_all_scopes (store_all_scopes C) ;;
    let urls := [clone_url (repository push);
                 git_url (repository push);
                 ssh_url (repository push)] in
    Py.for_each scopes (webhook_github_body push urls) ;;;
    Py.ret None.

(** *** The routes: a handler behind its declared dependencies

    A route is the handler as FastAPI calls it for a request: after the
    dependencies declared on the route, with the parameters bound from
    the request.  [route_webhook_github] binds the two headers the way
    [authorization: Optional[str] = Header(None)] of
    [_check_scope_api_key] is bound and takes the body already parsed as
    a [PushWebHook]; the declaration that api.py gives the handler is
    [webhook_github_route] below, and [serve] says whether FastAPI puts
    the handler behind its path. *)

Definition route_get_scope (request : Request) (scope_id : string) : M Scope :=
  _check_scope_api_key (authorization request) ;;; get_scope scope_id.

Definition route_add_scope (request : Request) (scope : Scope) : M unit :=
  _check_scope_api_key (authorization request) ;;; add_scope scope.

Definition route_get_scope_policy (request : Request) (scope_id : string)
           (base_hash : option string) : M PolicyBundle :=
  get_scope_policy scope_id base_hash.

Definition route_get_scope_data_config (request : Request) (scope_id : string)
  : M DataSourceConfig :=
  get_scope_data_config scope_id.

Definition route_periodic_check (request : Request) : M unit :=
  _check_scope_api_key (authorization request) ;;; periodic_check.

Definition route_webhook_github (request : Request) (push : PushWebHook)
  : M (option (list (string * string))) :=
  webhook_github (x_github_event request) (x_hub_signature_256 request)
                 push request.
End Api.

(** ** The declarations of the handlers

    FastAPI reads the signature of a handler when the decorator
    registers its route.  A parameter is declared by an annotation and,
    possibly, a default; [Header(None)], [Path(...)] and [Query(None)]
    are instances of FastAPI's parameter classes and say where the value
    comes from when they stand as the default of the parameter. *)

Inductive param_marker : Type :=
| Header_None     (* Header(None) *)
| Path_required   (* Path(..., title=...) *)
| Query_None.     (* Query(None, description=...) *)

(** What is written after the colon: a type, or (api.py l.153-154) an
    instance of a parameter class. *)
Inductive annotation : Type :=
| Type_annotation (type : string)
| Marker_annotation (marker : param_marker).

Record parameter : Type := {
  parameter_name : string;
  parameter_annotation : annotation;
  parameter_default : option param_marker
}.

Record route : Type := {
  route_method : string;
  route_path : string;
  route_dependencies : list (list parameter);
  route_parameters : list parameter
}.

(** FastAPI builds a field from the annotation of each parameter; an
    annotation that is not a type is refused with [FastAPIError]. *)
Definition analyze_param (p : parameter) : result unit :=
  match parameter_annotation p with
  | Type_annotation _ => Return tt
  | Marker_annotation _ => Raise (OtherError "FastAPIError")
  end.

Fixpoint analyze_params (ps : list parameter) : result unit :=
  match ps with
  | [] => Return tt
  | p :: ps' =>
      match analyze_param p with
      | Return _ => analyze_params ps'
      | Raise e => Raise e
      end
  end.

(** Registration of a route by [@router.get] or [@router.post]: the
    parameters of the handler, then those of its dependencies. *)
Definition add_api_route (r : route) : result unit :=
  match analyze_params (route_parameters r) with
  | Return _ => analyze_params (concat (route_dependencies r))
  | Raise e => Raise e
  end.

(** What answers the requests at the path of a route: the handler when
    the registration accepted the route, nothing when it raised. *)
Definition serve {A : Type} (r : route) (handler : A) : option A :=
  match add_api_route r with
  | Return _ => Some handler
  | Raise _ => None
  end.

(** [authorization: Optional[str] = Header(None)] *)
Definition _check_scope_api_key_parameters : list parameter :=
  [{| parameter_name := "authorization";
      parameter_annotation := Type_annotation "Optional[str]";
      parameter_default := Some Header_None |}].

(** [scope_id: str = Path(..., title="Scope ID")] *)
Definition scope_id_parameter : parameter :=
  {| parameter_name := "scope_id";
     parameter_annotation := Type_annotation "str";
     parameter_default := Some Path_required |}.

Definition get_scope_route : route :=
  {| route_method := "GET";
     route_path := "/scopes/{scope_id}";
     route_dependencies := [_check_scope_api_key_parameters];
     route_parameters := [scope_id_parameter] |}.

Definition add_scope_route : route :=
  {| route_method := "POST";
     route_path := "/scopes";
     route_dependencies := [_check_scope_api_key_parameters];
     route_parameters :=
       [{| parameter_name := "scope";
           parameter_annotation := Type_annotation "Scope";
           parameter_default := None |}] |}.

Definition get_scope_policy_route : route :=
  {| route_method := "GET";
     route_path := "/scopes/{scope_id}/policy";
     route_dependencies := [];
     route_parameters :=
       [scope_id_parameter;
        {| parameter_name := "base_hash";
           parameter_annotation := Type_annotation "Optional[str]";
           parameter_default := Some Query_None |}] |}.

Definition get_scope_data_config_route : route :=
  {| route_method := "GET";
     route_path := "/scopes/{scope_id}/data";
     route_dependencies := [];
     route_parameters := [scope_id_parameter] |}.

Definition periodic_check_route : route :=
  {| route_method := "POST";
     route_path := "/scopes/periodic-check";
     route_dependencies := [_check_scope_api_key_parameters];
     route_parameters := [] |}.

(** The two headers of the webhook are declared with [Header(None)]
    where the type goes, and without a default:
    [x_github_event: Header(None), x_hub_signature_256: Header(None),
    push: PushWebHook, request: Request]. *)
Definition webhook_github_route : route :=
  {| route_method := "POST";
     route_path := "/scopes/webhook/github/push";
     route_dependencies := [];
     route_parameters :=
       [{| parameter_name := "x_github_event";
           parameter_annotation := Marker_annotation Header_None;
           parameter_default := None |};
        {| parameter_name := "x_hub_signature_256";
           parameter_annotation := Marker_annotation Header_None;
           parameter_default := None |};
        {| parameter_name := "push";
           parameter_annotation := Type_annotation "PushWebHook";
           parameter_default := None |};
        {| parameter_name := "request";
           parameter_annotation := Type_annotation "Request";
           parameter_default := None |}] |}.

(** ** The collaborators as the specification describes them

    [ScopeStore], [create_puller] and the pullers, [make_bundle],
    [publish_changed_directories] and
    [validate_github_signature_or_throw] are code of this repository that
    is not in [api.py].  This module gives them the behaviour the
    specification states, over a concrete world, as one instance of
    [Collaborators]. *)

Module SpecModel.

(** Modelled from the spec: a commit is an identifier (hexadecimal)
    within a git history plus the tree it addresses; the commit objects
    and the head of a repository are missing from src/ (git plumbing). *)
Record GitCommit : Type := {
  commit_hash : string;
  parents : list string;
  tree : list (Path * string)
}.

Record GitRepository : Type := {
  commits : list GitCommit;
  HEAD : string
}.

(** Modelled from the spec: a notification is a changed directory
    published under a topic prefix; the transport is missing from src/. *)
Record Notification : Type := {
  topic_prefix : string;
  directory : Path
}.

(** Modelled from the spec: the persisted state of the service, missing
    from src/: the registry in insertion order, one clone directory per
    scope, the upstream repositories that can be reached by URL, and
    the notifications published so far.  The tracked head of a scope is
    the head of its clone. *)
Record World : Type := {
  registry : list (string * Scope);
  clones : list (string * GitRepository);
  upstream : list (string * GitRepository);
  published : list Notification
}.

(** Modelled from the spec: a puller, missing from src/, knows the
    clone directory and the source URL of its scope. *)
Record Puller : Type := {
  puller_dir : string;
  puller_url : string
}.

Fixpoint assoc {V : Type} (k : string) (l : list (string * V)) : option V :=
  match l with
  | [] => None
  | (k', v) :: rest => if String.eqb k k' then Some v else assoc k rest
  end.

(** Replaces the value of an existing key in place, or appends the
    binding: insertion order is kept. *)
Fixpoint upsert {V : Type} (k : string) (v : V) (l : list (string * V))
  : list (string * V) :=
  match l with
  | [] => [(k, v)]
  | (k', v') :: rest =>
      if String.eqb k k' then (k, v) :: rest else (k', v') :: upsert k v rest
  end.

Fixpoint tree_lookup (p : Path) (t : list (Path * string)) : option string :=
  match t with
  | [] => None
  | (q, c) :: rest => if Path_eq_dec p q then Some c else tree_lookup p rest
  end.

Definition find_commit (r : GitRepository) (h : string) : option GitCommit :=
  find (fun c => String.eqb (commit_hash c) h) (commits r).

(** The commit a [git.Commit] object addresses in a repository. *)
Definition resolve_binsha (r : GitRepository) (sha : list byte)
  : option GitCommit :=
  find (fun c =>
          match bytes_fromhex (commit_hash c) with
          | Return b => if list_eq_dec Byte.byte_eq_dec b sha then true else false
          | Raise _ => false
          end) (commits r).

(** [a] is [b] or is reached from [b] through parents, within [fuel]
    steps. *)
Fixpoint reaches (r : GitRepository) (fuel : nat) (a b : string) : bool :=
  (String.eqb a b ||
   match fuel with
   | O => false
   | S fuel' =>
       match find_commit r b with
       | Some cb => existsb (fun p => reaches r fuel' a p) (parents cb)
       | None => false
       end
   end)%bool.

Definition is_ancestor (r : GitRepository) (a b : GitCommit) : bool :=
  reaches r (length (commits r)) (commit_hash a) (commit_hash b).

(** *** Selection of files *)

Fixpoint is_prefix (d p : Path) : bool :=
  match d, p with
  | [], _ => true
  | x :: d', y :: p' => (String.eqb x y && is_prefix d' p')%bool
  | _ :: _, [] => false
  end.

(** A file is under a directory when the directory is a proper prefix
    of its path. *)
Definition is_under (d p : Path) : bool :=
  (is_prefix d p && (length d <? length p)%nat)%bool.

Fixpoint last_dot (s : string) : option string :=
  match s with
  | EmptyString => None
  | String c rest =>
      match last_dot rest with
      | Some x => Some x
      | None => if Ascii.eqb c "."%char then Some (String c rest) else None
      end
  end.

(** The extension of a file name, with its dot: from the last dot that
    is not the first character. *)
Definition suffix (name : string) : string :=
  match name with
  | EmptyString => ""
  | String _ rest =>
      match last_dot rest with
      | Some x => x
      | None => ""
      end
  end.

Definition extension (p : Path) : string := suffix (last p "").

Definition selected (m : BundleMaker) (p : Path) : bool :=
  (existsb (fun d => is_under d p) (bm_directories m)
   && existsb (String.eqb (extension p)) (bm_extensions m))%bool.

(** *** Bundles *)

Definition full_files (m : BundleMaker) (target : GitCommit) : list FileEntry :=
  map (fun pc => {| file_path := fst pc; content := Some (snd pc);
                    is_deleted := false |})
      (filter (fun pc => selected m (fst pc)) (tree target)).

Definition written_files (m : BundleMaker) (base target : GitCommit)
  : list FileEntry :=
  map (fun pc => {| file_path := fst pc; content := Some (snd pc);
                    is_deleted := false |})
      (filter (fun pc =>
                 (selected m (fst pc) &&
                  match tree_lookup (fst pc) (tree base) with
                  | Some c => negb (String.eqb c (snd pc))
                  | None => true
                  end)%bool)
              (tree target)).

Definition deleted_files (m : BundleMaker) (base target : GitCommit)
  : list FileEntry :=
  map (fun pc => {| file_path := fst pc; content := None; is_deleted := true |})
      (filter (fun pc =>
                 (selected m (fst pc) &&
                  match tree_lookup (fst pc) (tree target) with
                  | Some _ => false
                  | None => true
                  end)%bool)
              (tree base)).

Definition manifest_of (m : BundleMaker) (target : GitCommit) : option string :=
  tree_lookup (pathlib_Path (bm_manifest_filename m)) (tree target).

(** Modelled from the spec: the hash of a bundle is derived from the
    target commit and the selection parameters (directories, extensions,
    manifest), so that the same logical state has the same hash; it is
    rendered here as the text of those parts. *)
Definition bundle_hash (m : BundleMaker) (target : GitCommit) : string :=
  commit_hash target
  ++ ";" ++ String.concat "," (map (String.concat "/") (bm_directories m))
  ++ ";" ++ String.concat "," (bm_extensions m)
  ++ ";" ++ bm_manifest_filename m.

Definition full_bundle (m : BundleMaker) (target : GitCommit) : PolicyBundle :=
  {| hash := bundle_hash m target;
     old_hash := None;
     files := full_files m target;
     manifest_content := manifest_of m target |}.

Definition diff_bundle (m : BundleMaker) (base_hash : string)
           (base target : GitCommit) : PolicyBundle :=
  {| hash := bundle_hash m target;
     old_hash := Some base_hash;
     files := (written_files m base target ++ deleted_files m base target)%list;
     manifest_content := manifest_of m target |}.

(** Modelled from the spec: the bundle maker ([make_bundle] and
    [BundleMaker] are missing from src/).  The target is the head of
    the repository.  An absent base, or one the repository does not
    know, gives the full bundle; a base that resolves and is an
    ancestor of the target gives the diff; a base that resolves but is
    not an ancestor makes the maker fail. *)
Definition make (r : GitRepository) (m : BundleMaker) (base_hash : option string)
  : result PolicyBundle :=
  match find_commit r (HEAD r) with
  | None => Raise (OtherError "BadName")
  | Some target =>
      match base_hash with
      | None => Return (full_bundle m target)
      | Some h =>
          match find_commit r h with
          | None => Return (full_bundle m target)
          | Some base =>
              if is_ancestor r base target
              then Return (diff_bundle m h base target)
              else Raise (OtherError "DiffBaseUnresolvable")
          end
      end
  end.

(** *** The operations *)

Section Operations.
Variable opal_server_config : Config.
(** The shared secret of the webhook and the keyed signature of a raw
    body under a key (the value the signature header must carry). *)
Variable webhook_secret : string.
Variable sign : string -> string -> string.

(** Modelled from the spec: the puller variants (currently one). *)
Definition known_source_types : list string := ["git-polling"].

(** Modelled from the spec: [create_puller] is missing from src/; a
    source type without a puller variant fails with the offending
    type string. *)
Definition new_puller (base_dir : string) (s : Scope) : result Puller :=
  if existsb (String.eqb (source_type (policy s))) known_source_types
  then Return {| puller_dir := os_path_join base_dir (scope_id s);
                 puller_url := url (policy s) |}
  else Raise (InvalidScopeSourceType (source_type (policy s))).

Definition spec_create_puller (base_dir : string) (s : Scope) (w : World)
  : result Puller * World :=
  (new_puller base_dir s, w).

(** Modelled from the spec: [ScopeStore.get_scope] is missing from
    src/; it returns the scope or fails with [ScopeNotFound]. *)
Definition spec_get_scope (sid : string) (w : World) : result Scope * World :=
  match assoc sid (registry w) with
  | Some s => (Return s, w)
  | None => (Raise (ScopeNotFound sid), w)
  end.

(** Modelled from the spec: [ScopeStore.add_scope] is missing from
    src/; it validates the source type against the puller variants
    and fails with the offending type when there is none; otherwise
    it clones the upstream into the directory of the scope and
    persists the scope.  A scope that is already registered is
    validated and persisted again without a new clone, and an
    upstream that cannot be reached leaves the scope registered
    without a clone. *)
Definition spec_add_scope (s : Scope) (w : World) : result unit * World :=
  match new_puller (_get_base_dir opal_server_config) s with
  | Raise e => (Raise e, w)
  | Return p =>
      let cloned :=
        match assoc (scope_id s) (registry w),
              assoc (puller_url p) (upstream w) with
        | None, Some up => upsert (puller_dir p) up (clones w)
        | _, _ => clones w
        end in
      (Return tt,
       {| registry := upsert (scope_id s) s (registry w);
          clones := cloned;
          upstream := upstream w;
          published := published w |})
  end.

(** Modelled from the spec: [ScopeStore.all_scopes] is missing from
    src/; it produces the sequence of (scope_id, scope) pairs in
    insertion order. *)
Definition spec_all_scopes (w : World) : result (list scope_item) * World :=
  (Return (map (fun e => ScopeTuple (fst e) (snd e)) (registry w)), w).

(** Modelled from the spec: [check] is missing from src/; it is true
    iff the upstream head is not the last-known local head, changes
    nothing, and fails with a fetch error when the upstream cannot be
    reached. *)
Definition spec_check (p : Puller) (w : World) : result bool * World :=
  match assoc (puller_url p) (upstream w) with
  | None => (Raise (OtherError "FetchFailure"), w)
  | Some up =>
      match assoc (puller_dir p) (clones w) with
      | Some loc => (Return (negb (String.eqb (HEAD loc) (HEAD up))), w)
      | None => (Return true, w)
      end
  end.

Definition commit_at (dir h : string) : result Commit :=
  match bytes_fromhex h with
  | Return sha => git_Commit {| working_dir := dir |} sha
  | Raise e => Raise e
  end.

(** Modelled from the spec: [diff] is missing from src/; it gives the
    range from the last-known head to the upstream head and fails on
    an empty range. *)
Definition spec_diff (p : Puller) (w : World)
  : result (Commit * Commit) * World :=
  match assoc (puller_url p) (upstream w), assoc (puller_dir p) (clones w) with
  | Some up, Some loc =>
      if String.eqb (HEAD loc) (HEAD up)
      then (Raise (OtherError "EmptyRange"), w)
      else
        match commit_at (puller_dir p) (HEAD loc),
              commit_at (puller_dir p) (HEAD up) with
        | Return o, Return n => (Return (o, n), w)
        | Raise e, _ => (Raise e, w)
        | _, Raise e => (Raise e, w)
        end
  | None, _ => (Raise (OtherError "FetchFailure"), w)
  | _, None => (Raise (OtherError "NoSuchPathError"), w)
  end.

(** Modelled from the spec: [pull] is missing from src/; it
    fast-forwards the clone to the upstream head, fails with a fetch
    error when the upstream cannot be reached and with a
    non-fast-forward error when the local head is not part of the
    upstream history. *)
Definition spec_pull (p : Puller) (w : World) : result unit * World :=
  match assoc (puller_url p) (upstream w) with
  | None => (Raise (OtherError "FetchFailure"), w)
  | Some up =>
      let forwarded :=
        {| registry := registry w;
           clones := upsert (puller_dir p) up (clones w);
           upstream := upstream w;
           published := published w |} in
      match assoc (puller_dir p) (clones w) with
      | None => (Return tt, forwarded)
      | Some loc =>
          if reaches up (length (commits up)) (HEAD loc) (HEAD up)
          then (Return tt, forwarded)
          else (Raise (OtherError "NonFastForward"), w)
      end
  end.

(** Modelled from the spec: [ScopeStore.pull_scope] is missing from
    src/; it delegates to the puller of the scope. *)
Definition spec_pull_scope (sid : string) (w : World) : result unit * World :=
  match assoc sid (registry w) with
  | None => (Raise (ScopeNotFound sid), w)
  | Some s =>
      match new_puller (_get_base_dir opal_server_config) s with
      | Raise e => (Raise e, w)
      | Return p => spec_pull p w
      end
  end.

Definition publisher_prefix (pub : Publisher) : string :=
  match pub with
  | ServerSideTopicPublisher _ prefix => prefix
  | PublisherTask _ _ prefix => prefix
  end.

Definition changed_paths (o n : GitCommit) : list Path :=
  (map fst
       (filter (fun pc =>
                  match tree_lookup (fst pc) (tree o) with
                  | Some c => negb (String.eqb c (snd pc))
                  | None => true
                  end) (tree n))
   ++
   map fst
       (filter (fun pc =>
                  match tree_lookup (fst pc) (tree n) with
                  | Some _ => false
                  | None => true
                  end) (tree o)))%list.

(** Modelled from the spec: [publish_changed_directories] is missing
    from src/; it takes the paths that changed between the two
    commits, reduces each to its directory, and publishes one
    notification per distinct directory under the prefix of the
    publisher; an empty range publishes nothing. *)
Definition spec_publish_changed_directories
           (old_commit new_commit : Commit) (pub : Publisher) (w : World)
  : result unit * World :=
  match assoc (working_dir (commit_repo new_commit)) (clones w) with
  | None => (Raise (OtherError "NoSuchPathError"), w)
  | Some r =>
      match resolve_binsha r (binsha old_commit),
            resolve_binsha r (binsha new_commit) with
      | Some o, Some n =>
          let dirs := nodup Path_eq_dec (map (@removelast string)
                                             (changed_paths o n)) in
          (Return tt,
           {| registry := registry w;
              clones := clones w;
              upstream := upstream w;
              published :=
                (published w ++
                 map (fun d => {| topic_prefix := publisher_prefix pub;
                                  directory := d |}) dirs)%list |})
      | _, _ => (Raise (OtherError "BadObject"), w)
      end
  end.

(** Modelled from the spec: [validate_github_signature_or_throw] is
    missing from src/; the signature header must be the keyed
    signature of the raw body under the shared secret, and anything
    else is refused as unauthorized, with no detail. *)
Definition spec_validate_github_signature_or_throw
           (request : Request) (signature : option string) (w : World)
  : result bool * World :=
  match signature with
  | Some sig =>
      if String.eqb sig (sign webhook_secret (raw_body request))
      then (Return true, w)
      else (Raise (HTTPException HTTP_401_UNAUTHORIZED None), w)
  | None => (Raise (HTTPException HTTP_401_UNAUTHORIZED None), w)
  end.

(** [git.Repo(path)] opens the clone at a directory that holds one. *)
Definition spec_git_Repo (path : string) (w : World) : result Repo * World :=
  match assoc path (clones w) with
  | Some _ => (Return {| working_dir := path |}, w)
  | None => (Raise (OtherError "NoSuchPathError"), w)
  end.

(** Modelled from the spec: [make_bundle] is missing from src/; it makes
    the bundle of the clone the repository handle points at. *)
Definition spec_make_bundle (m : BundleMaker) (repo : Repo)
           (base_hash : option string) (w : World)
  : result PolicyBundle * World :=
  match assoc (working_dir repo) (clones w) with
  | Some r => (make r m base_hash, w)
  | None => (Raise (OtherError "NoSuchPathError"), w)
  end.

Definition collaborators : Collaborators World Puller :=
  {| store_get_scope := spec_get_scope;
     store_add_scope := spec_add_scope;
     store_all_scopes := spec_all_scopes;
     store_pull_scope := spec_pull_scope;
     create_puller := spec_create_puller;
     puller_check := spec_check;
     puller_diff := spec_diff;
     puller_pull := spec_pull;
     publish_changed_directories := spec_publish_changed_directories;
     validate_github_signature_or_throw :=
       spec_validate_github_signature_or_throw;
     git_Repo := spec_git_Repo;
     make_bundle := spec_make_bundle |}.
End Operations.
End SpecModel.

(** ** A concrete deployment

    One scope, [demo], tracks a repository whose upstream has advanced
    from commit [c1] to commit [c2]; the inputs of the examples below are
    built from it. *)

Module Demo.

Definition config : Config :=
  {| BASE_DIR := "/opal";
     SCOPE_API_KEY := "s3cret";
     OPAL_WS_LOCAL_URL := "ws://localhost:7002/ws";
     OPAL_WS_TOKEN := "ws-token" |}.

Definition endpoint : PubSubEndpoint := {| endpoint_name := "pubsub" |}.

Definition secret : string := "hook-secret".

(** A stand-in for the keyed signature, enough to tell bodies and keys
    apart. *)
Definition toy_sign (key body : string) : string :=
  "sha256=" ++ key ++ ":" ++ body.

Definition hash_c1 : string := "c1c1c1c1c1c1c1c1c1c1c1c1c1c1c1c1c1c1c1c1".

Definition hash_c2 : string := "c2c2c2c2c2c2c2c2c2c2c2c2c2c2c2c2c2c2c2c2".

Definition c1 : SpecModel.GitCommit :=
  {| SpecModel.commit_hash := hash_c1;
     SpecModel.parents := [];
     SpecModel.tree :=
       [ (["policies"; "x.rego"], "allow = false");
         (["policies"; "y.rego"], "deny = true");
         (["policies"; "old.rego"], "legacy");
         (["policies"; "notes.txt"], "draft");
         (["README.md"], "readme") ] |}.

Definition c2 : SpecModel.GitCommit :=
  {| SpecModel.commit_hash := hash_c2;
     SpecModel.parents := [hash_c1];
     SpecModel.tree :=
       [ (["policies"; "x.rego"], "allow = true");
         (["policies"; "y.rego"], "deny = true");
         (["policies"; "notes.txt"], "final");
         (["README.md"], "readme v2") ] |}.

Definition repo_at_c1 : SpecModel.GitRepository :=
  {| SpecModel.commits := [c1]; SpecModel.HEAD := hash_c1 |}.

Definition repo_at_c2 : SpecModel.GitRepository :=
  {| SpecModel.commits := [c2; c1]; SpecModel.HEAD := hash_c2 |}.

Definition demo_url : string := "https://github.com/acme/policies.git".

Definition demo : Scope :=
  {| scope_id := "demo";
     policy := {| source_type := "git-polling";
                  url := demo_url;
                  polling := true;
                  directories := ["policies"];
                  extensions := [".rego"];
                  manifest := ".manifest" |};
     data := {| entries := ["https://data.acme.example/v1"] |} |}.

(** A second scope whose upstream cannot be reached. *)
Definition offline : Scope :=
  {| scope_id := "offline";
     policy := {| source_type := "git-polling";
                  url := "https://git.internal.example/gone.git";
                  polling := true;
                  directories := ["rules"];
                  extensions := [".rego"];
                  manifest := ".manifest" |};
     data := {| entries := [] |} |}.

(** A scope that is not polled. *)
Definition quiet : Scope :=
  {| scope_id := "quiet";
     policy := {| source_type := "git-polling";
                  url := demo_url;
                  polling := false;
                  directories := ["policies"];
                  extensions := [".rego"];
                  manifest := ".manifest" |};
     data := {| entries := [] |} |}.

(** A scope whose source type has no puller variant. *)
Definition svn_scope : Scope :=
  {| scope_id := "legacy";
     policy := {| source_type := "svn";
                  url := "svn://svn.acme.example/policies";
                  polling := true;
                  directories := ["policies"];
                  extensions := [".rego"];
                  manifest := ".manifest" |};
     data := {| entries := [] |} |}.

Definition w_behind : SpecModel.World :=
  {| SpecModel.registry := [("demo", demo)];
     SpecModel.clones := [("/opal/scopes/demo", repo_at_c1)];
     SpecModel.upstream := [(demo_url, repo_at_c2)];
     SpecModel.published := [] |}.

(** The registry holds [offline] before [demo]. *)
Definition w_offline_first : SpecModel.World :=
  {| SpecModel.registry := [("offline", offline); ("demo", demo)];
     SpecModel.clones := [("/opal/scopes/offline", repo_at_c1);
                          ("/opal/scopes/demo", repo_at_c1)];
     SpecModel.upstream := [(demo_url, repo_at_c2)];
     SpecModel.published := [] |}.

(** The clone of [demo] is already at [c2]. *)
Definition w_current : SpecModel.World :=
  {| SpecModel.registry := [("demo", demo)];
     SpecModel.clones := [("/opal/scopes/demo", repo_at_c2)];
     SpecModel.upstream := [(demo_url, repo_at_c2)];
     SpecModel.published := [] |}.

Definition w_empty : SpecModel.World :=
  {| SpecModel.registry := [];
     SpecModel.clones := [];
     SpecModel.upstream := [(demo_url, repo_at_c2)];
     SpecModel.published := [] |}.

(** The state of [w_current] once the change from [c1] to [c2] has been
    published under the prefix of [demo]. *)
Definition w_notified : SpecModel.World :=
  {| SpecModel.registry := [("demo", demo)];
     SpecModel.clones := [("/opal/scopes/demo", repo_at_c2)];
     SpecModel.upstream := [(demo_url, repo_at_c2)];
     SpecModel.published :=
       [ {| SpecModel.topic_prefix := "demo"; SpecModel.directory := [] |};
         {| SpecModel.topic_prefix := "demo";
            SpecModel.directory := ["policies"] |} ] |}.

(** The registry holds [quiet] only. *)
Definition w_quiet : SpecModel.World :=
  {| SpecModel.registry := [("quiet", quiet)];
     SpecModel.clones := [("/opal/scopes/quiet", repo_at_c1)];
     SpecModel.upstream := [(demo_url, repo_at_c2)];
     SpecModel.published := [] |}.

Definition demo_puller : SpecModel.Puller :=
  {| SpecModel.puller_dir := "/opal/scopes/demo";
     SpecModel.puller_url := demo_url |}.

Definition demo_clone : Repo := {| working_dir := "/opal/scopes/demo" |}.

Definition commit_c1 : Commit :=
  {| commit_repo := demo_clone; binsha := repeat xc1 20 |}.

Definition commit_c2 : Commit :=
  {| commit_repo := demo_clone; binsha := repeat xc2 20 |}.

Definition C : Collaborators SpecModel.World SpecModel.Puller :=
  SpecModel.collaborators config secret toy_sign.

Definition push_body : string := "{before: c1c1, after: c2c2}".

Definition push_event : PushWebHook :=
  {| repository := {| clone_url := demo_url;
                      git_url := "git://github.com/acme/policies.git";
                      ssh_url := "git@github.com:acme/policies.git" |};
     before := hash_c1;
     after := hash_c2 |}.

(** A push delivery with the signature of its body. *)
Definition signed_push : Request :=
  {| authorization := None;
     x_github_event := Some "push";
     x_hub_signature_256 := Some (toy_sign secret push_body);
     raw_body := push_body |}.

(** The same delivery after its body was tampered with. *)
Definition tampered_push : Request :=
  {| authorization := None;
     x_github_event := Some "push";
     x_hub_signature_256 := Some (toy_sign secret push_body);
     raw_body := "{before: c1c1, after: ffff}" |}.

Definition ping : Request :=
  {| authorization := None;
     x_github_event := Some "ping";
     x_hub_signature_256 := None;
     raw_body := "{zen: true}" |}.

Definition anonymous : Request :=
  {| authorization := None;
     x_github_event := None;
     x_hub_signature_256 := None;
     raw_body := "" |}.

Definition admin : Request :=
  {| authorization := Some "Bearer s3cret";
     x_github_event := None;
     x_hub_signature_256 := None;
     raw_body := "" |}.

End Demo.

(** ** Statements used by the theorems *)

(** The three checks of the bearer dependency, read off the header: the
    header is missing, its scheme is not [bearer] whatever the case, or
    its token is not the configured secret. *)
Definition bearer_rejected (cfg : Config) (authorization : option string) : Prop :=
  authorization = None
  \/ lower (fst (get_authorization_scheme_param authorization)) <> "bearer"
  \/ snd (get_authorization_scheme_param authorization) <> SCOPE_API_KEY cfg.

(** The answer of every rejection of the bearer dependency. *)
Definition unauthorized : exn := HTTPException HTTP_401_UNAUTHORIZED None.

(** The same request with another Authorization header, or none. *)
Definition with_authorization (a : option string) (r : Request) : Request :=
  {| authorization := a;
     x_github_event := x_github_event r;
     x_hub_signature_256 := x_hub_signature_256 r;
     raw_body := raw_body r |}.

(** The outcome is an [HTTPException] with status 401, whatever its
    detail. *)
Definition raises_401 {A : Type} (r : result A) : Prop :=
  exists d, r = Raise (HTTPException HTTP_401_UNAUTHORIZED d).

(** None of the collaborators behind the two read endpoints raises an
    [HTTPException] with status 401 of its own. *)
Definition reads_raise_no_401 {W P : Type} (C : Collaborators W P) : Prop :=
  (forall sid w, ~ raises_401 (fst (store_get_scope C sid w)))
  /\ (forall path w, ~ raises_401 (fst (git_Repo C path w)))
  /\ (forall m repo base w, ~ raises_401 (fst (make_bundle C m repo base w))).

(** A tree maps a path to one blob. *)
Definition tree_ok (c : SpecModel.GitCommit) : Prop :=
  NoDup (map fst (SpecModel.tree c)).

(** [f] is an entry of the diff from [base] to [target] under the
    selection of [m]: its path is selected, the two trees differ at it,
    it carries what the target holds there, and it is flagged deleted
    exactly when the target holds nothing there. *)
Definition diff_entry (m : BundleMaker) (base target : SpecModel.GitCommit)
           (f : FileEntry) : Prop :=
  SpecModel.selected m (file_path f) = true
  /\ SpecModel.tree_lookup (file_path f) (SpecModel.tree base)
     <> SpecModel.tree_lookup (file_path f) (SpecModel.tree target)
  /\ content f = SpecModel.tree_lookup (file_path f) (SpecModel.tree target)
  /\ (is_deleted f = true
      <-> SpecModel.tree_lookup (file_path f) (SpecModel.tree target) = None).

(** [f] is an entry of the full snapshot of the selection of [m] at
    [target]: its path is selected, the target holds a file there, and the
    entry carries its content and is not flagged deleted. *)
Definition snapshot_entry (m : BundleMaker) (target : SpecModel.GitCommit)
           (f : FileEntry) : Prop :=
  SpecModel.selected m (file_path f) = true
  /\ content f <> None
  /\ content f = SpecModel.tree_lookup (file_path f) (SpecModel.tree target)
  /\ is_deleted f = false.

(** The bundle maker [get_scope_policy] builds for a scope, over the
    clone at [dir]. *)
Definition maker_of (dir : string) (scope : Scope) : BundleMaker :=
  {| bm_repo := {| working_dir := dir |};
     bm_directories :=
       nodup Path_eq_dec (map pathlib_Path (directories (policy scope)));
     bm_extensions := extensions (policy scope);
     bm_manifest_filename := manifest (policy scope) |}.

(** The state once the calls [cs] were made and left the world at [w]. *)
Definition extend {W : Type} (st : state W) (w : W) (cs : list call) : state W :=
  {| world := w; calls := calls st ++ cs |}.

(** Isolation of failures in the sweep, as the specification words it:
    whenever the body of the loop raises on one scope, a polled scope
    later in the sequence still has its puller created during the same
    sweep. *)
Definition sweep_isolates_failures {W P : Type} (C : Collaborators W P)
           (cfg : Config) (ep : PubSubEndpoint) : Prop :=
  forall (st : state W) (w0 : W) pre s1 mid sid2 scope2 post st1 e st2,
    store_all_scopes C (world st)
      = (Return (pre ++ s1 :: mid ++ ScopeTuple sid2 scope2 :: post)%list, w0) ->
    Py.for_each pre (periodic_check_body C cfg ep) (extend st w0 [Call_all_scopes])
      = (Return tt, st1) ->
    periodic_check_body C cfg ep s1 st1 = (Raise e, st2) ->
    polling (policy scope2) = true ->
    In (Call_create_puller (_get_base_dir cfg) scope2)
       (calls (snd (periodic_check C cfg ep st))).

(** ** [preload_scopes]

    The function that loads the scopes of the backend before the server
    starts.  It builds a scope store of its own, asks the backend for
    the scopes with the configured key as a bearer token, and adds each
    scope to the store; [@logger.catch] around it logs whatever
    exception leaves the body and returns [None]. *)

(** The two settings [preload_scopes] reads besides those of [Config]. *)
Record PreloadConfig : Type := {
  server_config : Config;
  REDIS_URL : string;
  BACKEND_URL : string
}.

Inductive preload_call : Type :=
| Pre_RedisDB (url : string)
| Pre_ScopeStore (base_dir : string)
| Pre_ClientSession (headers : list (string * string))
| Pre_session_get (url : string)
| Pre_resp_json
| Pre_add_scope (scope : Scope)
| Pre_release_response
| Pre_close_session
| Pre_logger_catch (e : exn).

(** The code [preload_scopes] calls: the constructors of the redis
    handle, the scope store and the HTTP session, the request and the
    reading of its JSON body, the exits of the two [async with] blocks,
    [parse_obj_as(List[Scope], ...)], and [add_scope] of the store it
    built. *)
Record PreloadCollaborators (W Redis Store Session Resp Json : Type) : Type := {
  new_RedisDB : string -> W -> result Redis * W;
  new_ScopeStore : string -> Redis -> W -> result Store * W;
  new_ClientSession : list (string * string) -> W -> result Session * W;
  session_get : Session -> string -> W -> result Resp * W;
  response_json : Resp -> W -> result Json * W;
  response_release : Resp -> W -> result unit * W;
  session_close : Session -> W -> result unit * W;
  parse_obj_as_scopes : Json -> result (list Scope);
  scope_store_add_scope : Store -> Scope -> W -> result unit * W
}.

Record pstate (W : Type) : Type := { pworld : W; pcalls : list preload_call }.

Definition pinvoke {W A : Type} (c : preload_call) (op : W -> result A * W)
  : Py.M (pstate W) A :=
  fun st =>
    let (r, w') := op (pworld st) in
    (r, {| pworld := w'; pcalls := pcalls st ++ [c] |}).

(** [async with enter as x: body]: the exit runs whether the body
    returns or raises; an exception of the exit takes the place of the
    outcome of the body. *)
Definition async_with {St X A : Type} (enter : Py.M St X)
           (exit : X -> Py.M St unit) (body : X -> Py.M St A) : Py.M St A :=
  fun st =>
    match enter st with
    | (Raise e, st1) => (Raise e, st1)
    | (Return x, st1) =>
        let (r, st2) := body x st1 in
        match exit x st2 with
        | (Return _, st3) => (r, st3)
        | (Raise e, st3) => (Raise e, st3)
        end
    end.

(** [@logger.catch]: an exception that leaves the function is logged and
    the function returns [None]. *)
Definition logger_catch {W : Type} (m : Py.M (pstate W) unit)
  : Py.M (pstate W) unit :=
  fun st =>
    match m st with
    | (Return _, st') => (Return tt, st')
    | (Raise e, st') =>
        (Return tt,
         {| pworld := pworld st'; pcalls := pcalls st' ++ [Pre_logger_catch e] |})
    end.

(** [{'Authorization': f'Bearer {opal_server_config.SCOPE_API_KEY}'}] *)
Definition preload_headers (cfg : Config) : list (string * string) :=
  [("Authorization", "Bearer " ++ SCOPE_API_KEY cfg)].

Section Preload.
Variables W Redis Store Session Resp Json : Type.
Variable PC : PreloadCollaborators W Redis Store Session Resp Json.
Variable cfg : PreloadConfig.

Local Open Scope py_scope.

(** The body of the innermost block: read the scopes and add each. *)
Definition preload_from_response (scope_store : Store) (resp : Resp)
  : Py.M (pstate W) unit :=
  resp_json <- pinvoke Pre_resp_json (response_json PC resp) ;;
  scopes <- Py.lift (parse_obj_as_scopes PC resp_json) ;;
  Py.for_each scopes
    (fun scope =>
       pinvoke (Pre_add_scope scope) (scope_store_add_scope PC scope_store scope)).

Definition preload_scopes : Py.M (pstate W) unit :=
  logger_catch
    (redis <- pinvoke (Pre_RedisDB (REDIS_URL cfg))
                      (new_RedisDB PC (REDIS_URL cfg)) ;;
     scope_store <-
       pinvoke (Pre_ScopeStore (_get_base_dir (server_config cfg)))
               (new_ScopeStore PC (_get_base_dir (server_config cfg)) redis) ;;
     if String.eqb (SCOPE_API_KEY (server_config cfg)) "" then Py.ret tt
     else
       let headers := preload_headers (server_config cfg) in
       let url := BACKEND_URL cfg ++ "/v1/scopes" in
       async_with
         (pinvoke (Pre_ClientSession headers) (new_ClientSession PC headers))
         (fun session => pinvoke Pre_close_session (session_close PC session))
         (fun session =>
            async_with
              (pinvoke (Pre_session_get url) (session_get PC session url))
              (fun resp => pinvoke Pre_release_response (response_release PC resp))
              (preload_from_response scope_store))).
End Preload.

(** The scopes [add_scope] was called with, in the order of the calls. *)
Fixpoint added_scopes (l : list preload_call) : list Scope :=
  match l with
  | [] => []
  | Pre_add_scope s :: rest => s :: added_scopes rest
  | _ :: rest => added_scopes rest
  end.

(** The world in which [add_scope] has returned on each scope of a list
    in turn, when it has. *)
Fixpoint adds_return {W Store : Type}
         (add : Store -> Scope -> W -> result unit * W)
         (store : Store) (l : list Scope) (w : W) : option W :=
  match l with
  | [] => Some w
  | scope :: rest =>
      match add store scope w with
      | (Return _, w') => adds_return add store rest w'
      | (Raise _, _) => None
      end
  end.

(** How many times the session was closed, and how many times a
    response was released. *)
Fixpoint closes (l : list preload_call) : nat :=
  match l with
  | [] => 0
  | Pre_close_session :: rest => Datatypes.S (closes rest)
  | _ :: rest => closes rest
  end.

Fixpoint releases (l : list preload_call) : nat :=
  match l with
  | [] => 0
  | Pre_release_response :: rest => Datatypes.S (releases rest)
  | _ :: rest => releases rest
  end.

(** The calls that reach the backend or the registry. *)
Definition reaches_backend (c : preload_call) : bool :=
  match c with
  | Pre_ClientSession _ | Pre_session_get _ | Pre_resp_json | Pre_add_scope _ => true
  | _ => false
  end.

(** A backend of the examples: two scopes are served, the store refuses
    the scope named by the world, a [None] world refusing none. *)
Module PreloadDemo.

Definition config : PreloadConfig :=
  {| server_config := Demo.config;
     REDIS_URL := "redis://localhost";
     BACKEND_URL := "https://backend.example" |}.

Definition no_key : PreloadConfig :=
  {| server_config := {| BASE_DIR := "/opal";
                         SCOPE_API_KEY := "";
                         OPAL_WS_LOCAL_URL := "ws://localhost:7002/ws";
                         OPAL_WS_TOKEN := "ws-token" |};
     REDIS_URL := "redis://localhost";
     BACKEND_URL := "https://backend.example" |}.

Definition served : list Scope := [Demo.quiet; Demo.svn_scope; Demo.demo].

Definition PC
  : PreloadCollaborators (option string) unit unit unit unit (list Scope) :=
  {| new_RedisDB := fun _ w => (Return tt, w);
     new_ScopeStore := fun _ _ w => (Return tt, w);
     new_ClientSession := fun _ w => (Return tt, w);
     session_get := fun _ _ w => (Return tt, w);
     response_json := fun _ w => (Return served, w);
     response_release := fun _ w => (Return tt, w);
     session_close := fun _ w => (Return tt, w);
     parse_obj_as_scopes := fun j => Return j;
     scope_store_add_scope :=
       fun _ scope w =>
         match w with
         | Some refused =>
             if String.eqb (scope_id scope) refused
             then (Raise (InvalidScopeSourceType (source_type (policy scope))), w)
             else (Return tt, w)
         | None => (Return tt, w)
         end |}.

Definition begin (w : option string) : pstate (option string) :=
  {| pworld := w; pcalls := [] |}.

End PreloadDemo.

(** ** Statements about the call logs *)

(** The text has no space. *)
Fixpoint no_space (s : string) : bool :=
  match s with
  | EmptyString => true
  | String c rest => (negb (Ascii.eqb c " "%char) && no_space rest)%bool
  end.




(** [git.Commit(repository, bytes.fromhex(text))] *)
Definition commit_of (repo : Repo) (text : string) : result Commit :=
  match bytes_fromhex text with
  | Return sha => git_Commit repo sha
  | Raise e => Raise e
  end.

(** In a log of the sweep, a publication comes directly after the
    [check()], [diff()] and [pull()] of one scope, and goes to the
    server-side publisher of that scope. *)
Definition publish_follows_pull (ep : PubSubEndpoint) (l : list call) : Prop :=
  forall pre o n pub post,
    l = (pre ++ Call_publish_changed_directories o n pub :: post)%list ->
    exists pre' sid,
      pre = (pre' ++ [Call_check sid; Call_diff sid; Call_pull sid])%list
      /\ pub = ServerSideTopicPublisher ep sid.

(** The calls of the body of the sweep. *)
Definition is_puller_call (c : call) : bool :=
  match c with
  | Call_create_puller _ _ | Call_check _ | Call_diff _ | Call_pull _
  | Call_publish_changed_directories _ _ _ => true
  | _ => false
  end.


(** A scope object whose URL is none of the given ones. *)
Definition other_scope_object (urls : list string) (item : scope_item) : Prop :=
  exists scope, item = ScopeObject scope /\ ~ In (url (policy scope)) urls.

(** A pair whose scope is not polled. *)
Definition unpolled_pair (item : scope_item) : Prop :=
  exists sid scope, item = ScopeTuple sid scope /\ polling (policy scope) = false.

(** The collaborators of the deployment with a store that lists scope
    objects, the shape [webhook_github] reads. *)
Module ObjectListing.

Definition C : Collaborators SpecModel.World SpecModel.Puller :=
  {| store_get_scope := store_get_scope Demo.C;
     store_add_scope := store_add_scope Demo.C;
     store_all_scopes :=
       fun w => (Return (map (fun e => ScopeObject (snd e)) (SpecModel.registry w)), w);
     store_pull_scope := store_pull_scope Demo.C;
     create_puller := create_puller Demo.C;
     puller_check := puller_check Demo.C;
     puller_diff := puller_diff Demo.C;
     puller_pull := puller_pull Demo.C;
     publish_changed_directories := publish_changed_directories Demo.C;
     validate_github_signature_or_throw :=
       validate_github_signature_or_throw Demo.C;
     git_Repo := git_Repo Demo.C;
     make_bundle := make_bundle Demo.C |}.

(** A push for another repository. *)
Definition other_push : PushWebHook :=
  {| repository := {| clone_url := "https://github.com/acme/other.git";
                      git_url := "git://github.com/acme/other.git";
                      ssh_url := "git@github.com:acme/other.git" |};
     before := Demo.hash_c1;
     after := Demo.hash_c2 |}.

(** A push for the repository of [demo] whose [before] is not
    hexadecimal. *)
Definition malformed_push : PushWebHook :=
  {| repository := repository Demo.push_event;
     before := "not-a-commit";
     after := Demo.hash_c2 |}.

(** A scope whose identifier is an absolute path. *)
Definition rooted : Scope :=
  {| scope_id := "/etc/opal";
     policy := policy Demo.demo;
     data := data Demo.demo |}.

Definition w_rooted : SpecModel.World :=
  {| SpecModel.registry := [("/etc/opal", rooted)];
     SpecModel.clones := [];
     SpecModel.upstream := [];
     SpecModel.published := [] |}.

End ObjectListing.

(** Registries on which the sweep meets a failing scope first. *)
Module SweepDemo.

(** The registry holds a scope whose source type has no puller before
    [demo]. *)
Definition w_legacy_first : SpecModel.World :=
  {| SpecModel.registry := [("legacy", Demo.svn_scope); ("demo", Demo.demo)];
     SpecModel.clones := [("/opal/scopes/demo", Demo.repo_at_c1)];
     SpecModel.upstream := [(Demo.demo_url, Demo.repo_at_c2)];
     SpecModel.published := [] |}.

(** The puller of [offline]. *)
Definition offline_puller : SpecModel.Puller :=
  {| SpecModel.puller_dir := "/opal/scopes/offline";
     SpecModel.puller_url := "https://git.internal.example/gone.git" |}.

End SweepDemo.

(** One step of a handler in a proof: the next collaborator call has the
    outcome stated by the hypothesis [H]. *)
Ltac run_call H :=
  unfold Py.bind, invoke; cbn [world calls]; rewrite H; cbn [world calls].

(** * Theorems *)

(** ** The monad and the call log *)

Lemma invoke_run :
  forall (W A : Type) (c : call) (op : W -> result A * W) (st : state W) r w',
    op (world st) = (r, w') ->
    invoke c op st = (r, extend st w' [c]).
Proof.
  intros W A c op st r w' H. unfold invoke, extend. rewrite H. reflexivity.
Qed.

(** A loop over [xs ++ ys] runs the loop over [xs] and, when that
    returns, the loop over [ys] from the state reached; when it raises,
    nothing of [ys] is run. *)
Lemma for_each_app :
  forall (St A : Type) (body : A -> Py.M St unit) (xs ys : list A) (st : St),
    Py.for_each (xs ++ ys) body st =
    match Py.for_each xs body st with
    | (Return _, st') => Py.for_each ys body st'
    | (Raise e, st') => (Raise e, st')
    end.
Proof.
  intros St A body xs ys. induction xs as [|x xs IH]; intros st.
  - reflexivity.
  - simpl. unfold Py.bind.
    destruct (body x st) as [[u|e] st']; [apply IH | reflexivity].
Qed.

Lemma for_each_raises_at :
  forall (St A : Type) (body : A -> Py.M St unit) pre x post st st1 e st2,
    Py.for_each pre body st = (Return tt, st1) ->
    body x st1 = (Raise e, st2) ->
    Py.for_each (pre ++ x :: post) body st = (Raise e, st2).
Proof.
  intros St A body pre x post st st1 e st2 Hpre Hx.
  rewrite for_each_app, Hpre. simpl. unfold Py.bind. rewrite Hx. reflexivity.
Qed.

Lemma for_each_continues_after :
  forall (St A : Type) (body : A -> Py.M St unit) pre x post st st1 st2,
    Py.for_each pre body st = (Return tt, st1) ->
    body x st1 = (Return tt, st2) ->
    Py.for_each (pre ++ x :: post) body st = Py.for_each post body st2.
Proof.
  intros St A body pre x post st st1 st2 Hpre Hx.
  rewrite for_each_app, Hpre. simpl. unfold Py.bind. rewrite Hx. reflexivity.
Qed.

(** ** The webhook: event type and signature *)

Section Webhook.
Variables W P : Type.
Variable C : Collaborators W P.
Variable cfg : Config.

Lemma event_is_push_false :
  forall ev : option string,
    ev <> Some "push" ->
    match ev with Some e => String.eqb e "push" | None => false end = false.
Proof.
  intros [e|] H; [|reflexivity].
  destruct (String.eqb_spec e "push") as [->|]; [contradiction | reflexivity].
Qed.

(** The handler, once called: an event type that is anything but [push]
    (or is absent) is answered [{'status': 'ok'}]; the state after the
    handler is the state before it: the world is untouched and no
    collaborator was called, so no scope was pulled and nothing was
    published. *)
Lemma webhook_github_ignores_other_events :
  forall (request : Request) (push : PushWebHook) (st : state W),
    x_github_event request <> Some "push" ->
    route_webhook_github C cfg request push st
    = (Return (Some [("status", "ok")]), st)
    /\ response_status HTTP_200_OK
                       (fst (route_webhook_github C cfg request push st))
       = HTTP_200_OK.
Proof.
  intros request push st H.
  unfold route_webhook_github, webhook_github.
  rewrite (event_is_push_false H). split; reflexivity.
Qed.

(** C1: a [push] delivery on which the signature validation raises is
    rejected with that exception; the validation is the only call the
    handler makes (the registry is not listed, no scope is pulled, no
    notification is published) and the world stays as it was. *)
Theorem webhook_github_rejects_before_any_pull :
  forall (request : Request) (push : PushWebHook) (st : state W) (e : exn),
    x_github_event request = Some "push" ->
    validate_github_signature_or_throw C request (x_hub_signature_256 request)
                                       (world st)
    = (Raise e, world st) ->
    exists st',
      route_webhook_github C cfg request push st = (Raise e, st')
      /\ world st' = world st
      /\ calls st' = (calls st
                      ++ [Call_validate_github_signature
                            request (x_hub_signature_256 request)])%list.
Proof.
  intros request push st e Hev Hval.
  unfold route_webhook_github, webhook_github. rewrite Hev. simpl.
  run_call Hval.
  eexists. split; [reflexivity | split; reflexivity].
Qed.
End Webhook.

(** The signature check of the specification refuses every header that
    is not the signature of the raw body under the shared secret. *)
Lemma spec_validate_refuses :
  forall secret sign request signature (w : SpecModel.World),
    signature <> Some (sign secret (raw_body request)) ->
    SpecModel.spec_validate_github_signature_or_throw
      secret sign request signature w
    = (Raise unauthorized, w).
Proof.
  intros secret sign request [sig|] w H; simpl; [|reflexivity].
  destruct (String.eqb_spec sig (sign secret (raw_body request))) as [->|];
    [contradiction | reflexivity].
Qed.

Lemma webhook_github_ignores_ping :
  x_github_event Demo.ping <> Some "push"
  /\ route_webhook_github Demo.C Demo.config Demo.ping Demo.push_event
                          (start Demo.w_behind)
     = (Return (Some [("status", "ok")]), start Demo.w_behind).
Proof.
  split; [discriminate|].
  apply (webhook_github_ignores_other_events Demo.C Demo.config
           Demo.ping Demo.push_event (start Demo.w_behind)).
  discriminate.
Defined.

(** C9 on the code: the function [webhook_github] returns
    [{'status': 'ok'}] and leaves the state as it was when the event
    type is anything but [push]; but its route is never served.  The
    declaration of the handler has [Header(None)] as the annotation of
    both headers, the registration of the route raises on it, and
    nothing answers at the path of the webhook.  The routes declared the
    way [_check_scope_api_key] declares its header, with the type as
    the annotation and the marker as the default, are all accepted. *)
Theorem webhook_github_route_is_refused :
  add_api_route webhook_github_route = Raise (OtherError "FastAPIError")
  /\ (forall (W P : Type) (C : Collaborators W P) (cfg : Config),
         serve webhook_github_route (route_webhook_github C cfg) = None)
  /\ Forall (fun r => add_api_route r = Return tt)
            [get_scope_route; add_scope_route; get_scope_policy_route;
             get_scope_data_config_route; periodic_check_route]
  /\ (forall (W P : Type) (C : Collaborators W P) (cfg : Config)
             (request : Request) (push : PushWebHook) (st : state W),
         x_github_event request <> Some "push" ->
         route_webhook_github C cfg request push st
         = (Return (Some [("status", "ok")]), st)).
Proof.
  split; [reflexivity|].
  split; [intros; reflexivity|].
  split; [repeat constructor|].
  intros W P C cfg request push st H.
  apply (webhook_github_ignores_other_events C cfg request push st H).
Qed.

Lemma webhook_github_rejects_tampered_push :
  x_hub_signature_256 Demo.tampered_push
    <> Some (Demo.toy_sign Demo.secret (raw_body Demo.tampered_push))
  /\ exists st',
      route_webhook_github Demo.C Demo.config Demo.tampered_push
                           Demo.push_event (start Demo.w_behind)
      = (Raise unauthorized, st')
      /\ world st' = Demo.w_behind
      /\ calls st' = [Call_validate_github_signature
                        Demo.tampered_push
                        (x_hub_signature_256 Demo.tampered_push)].
Proof.
  split; [discriminate|].
  apply (webhook_github_rejects_before_any_pull Demo.C Demo.config
           Demo.tampered_push Demo.push_event (start Demo.w_behind)
           (e := unauthorized)).
  - reflexivity.
  - reflexivity.
Defined.

(** ** The bearer-token dependency *)

Lemma scheme_param_of_nonempty :
  forall v : string,
    v <> "" -> get_authorization_scheme_param (Some v) = partition_space v.
Proof.
  intros [|c v] H; [contradiction | reflexivity].
Qed.

Lemma lower_empty_is_not_bearer : lower "" <> "bearer".
Proof. discriminate. Qed.

Section Bearer.
Variables W P : Type.
Variable C : Collaborators W P.
Variable cfg : Config.
Variable ep : PubSubEndpoint.

Lemma check_scope_api_key_rejects :
  forall (a : option string) (st : state W),
    bearer_rejected cfg a ->
    _check_scope_api_key cfg a st = (Raise unauthorized, st).
Proof.
  intros a st H. unfold _check_scope_api_key.
  destruct a as [v|]; [|reflexivity].
  unfold falsy. destruct (String.eqb_spec v "") as [->|Hv]; [reflexivity|].
  destruct H as [H | [H | H]]; [discriminate | |];
    rewrite (scheme_param_of_nonempty Hv) in *;
    destruct (partition_space v) as [scheme param]; simpl in H.
  - destruct (String.eqb_spec (lower scheme) "bearer"); [contradiction|].
    reflexivity.
  - destruct (String.eqb_spec param (SCOPE_API_KEY cfg)); [contradiction|].
    rewrite orb_true_r. reflexivity.
Qed.

Lemma check_scope_api_key_accepts :
  forall (a : option string) (st : state W),
    ~ bearer_rejected cfg a ->
    _check_scope_api_key cfg a st = (Return tt, st).
Proof.
  intros a st H. unfold _check_scope_api_key, bearer_rejected in *.
  destruct a as [v|]; [|exfalso; apply H; left; reflexivity].
  unfold falsy. destruct (String.eqb_spec v "") as [->|Hv].
  - exfalso. apply H. right. left. exact lower_empty_is_not_bearer.
  - rewrite (scheme_param_of_nonempty Hv) in *.
    destruct (partition_space v) as [scheme param]; simpl in H.
    destruct (String.eqb_spec (lower scheme) "bearer") as [Hs|Hs];
      [|exfalso; apply H; right; left; exact Hs].
    destruct (String.eqb_spec param (SCOPE_API_KEY cfg)) as [Hp|Hp];
      [|exfalso; apply H; right; right; exact Hp].
    reflexivity.
Qed.

(** C7: on the three bearer-protected routes the dependency raises
    [HTTPException(401)] exactly when the Authorization header is
    missing, its scheme is not [bearer] in any case, or its token is not
    the configured secret.  Every rejection is the same exception, with
    no detail, whichever check failed; the state is the one before the
    request, so the handler body was not entered (it made no call).  A
    request that passes is handed to the handler. *)
Theorem bearer_routes_reject_iff :
  forall (request : Request) (st : state W),
    let a := authorization request in
    (bearer_rejected cfg a
     <-> _check_scope_api_key cfg a st = (Raise unauthorized, st))
    /\ (~ bearer_rejected cfg a
        <-> _check_scope_api_key cfg a st = (Return tt, st))
    /\ (bearer_rejected cfg a ->
        (forall sid, route_get_scope C cfg request sid st
                     = (Raise unauthorized, st))
        /\ (forall scope, route_add_scope C cfg request scope st
                          = (Raise unauthorized, st))
        /\ route_periodic_check C cfg ep request st = (Raise unauthorized, st))
    /\ (~ bearer_rejected cfg a ->
        (forall sid, route_get_scope C cfg request sid st = get_scope C sid st)
        /\ (forall scope, route_add_scope C cfg request scope st
                          = add_scope C scope st)
        /\ route_periodic_check C cfg ep request st = periodic_check C cfg ep st).
Proof.
  intros request st a.
  assert (Hdec : bearer_rejected cfg a \/ ~ bearer_rejected cfg a).
  { destruct (_check_scope_api_key cfg a st) as [[u|e] st'] eqn:E.
    - right. intros H. rewrite (check_scope_api_key_rejects st H) in E.
      discriminate.
    - left. unfold bearer_rejected.
      destruct a as [v|]; [|left; reflexivity].
      right.
      destruct (string_dec
                  (lower (fst (get_authorization_scheme_param (Some v))))
                  "bearer") as [Hs|Hs]; [|left; exact Hs].
      right. intros Hp.
      unfold _check_scope_api_key in E. unfold falsy in E.
      destruct (String.eqb_spec v "") as [->|Hv]; [discriminate Hs|].
      destruct (get_authorization_scheme_param (Some v)) as [scheme param].
      simpl in Hs, Hp. rewrite Hs, Hp, !String.eqb_refl in E. discriminate E. }
  repeat split.
  - apply check_scope_api_key_rejects.
  - intros E. destruct Hdec as [H|H]; [exact H|].
    rewrite (check_scope_api_key_accepts st H) in E. discriminate.
  - apply check_scope_api_key_accepts.
  - intros E H. rewrite (check_scope_api_key_rejects st H) in E. discriminate.
  - intros sid. unfold route_get_scope, Py.bind.
    fold a. rewrite (check_scope_api_key_rejects st H). reflexivity.
  - intros scope. unfold route_add_scope, Py.bind.
    fold a. rewrite (check_scope_api_key_rejects st H). reflexivity.
  - unfold route_periodic_check, Py.bind.
    fold a. rewrite (check_scope_api_key_rejects st H). reflexivity.
  - intros sid. unfold route_get_scope, Py.bind.
    fold a. rewrite (check_scope_api_key_accepts st H). reflexivity.
  - intros scope. unfold route_add_scope, Py.bind.
    fold a. rewrite (check_scope_api_key_accepts st H). reflexivity.
  - unfold route_periodic_check, Py.bind.
    fold a. rewrite (check_scope_api_key_accepts st H). reflexivity.
Qed.
End Bearer.

Lemma bearer_routes_examples :
  route_get_scope Demo.C Demo.config Demo.anonymous "demo" (start Demo.w_current)
  = (Raise unauthorized, start Demo.w_current)
  /\ route_get_scope Demo.C Demo.config Demo.admin "demo" (start Demo.w_current)
     = get_scope Demo.C "demo" (start Demo.w_current).
Proof.
  split.
  - apply (proj1 (proj2 (proj2 (bearer_routes_reject_iff
                                   Demo.C Demo.config Demo.endpoint
                                   Demo.anonymous (start Demo.w_current))))).
    left. reflexivity.
  - apply (proj2 (proj2 (proj2 (bearer_routes_reject_iff
                                   Demo.C Demo.config Demo.endpoint
                                   Demo.admin (start Demo.w_current))))).
    intros [H | [H | H]]; [discriminate H | apply H; reflexivity
                          | apply H; reflexivity].
Defined.

(** The scheme is compared whatever its case; the token is compared as
    it stands. *)
Lemma check_scope_api_key_cases :
  forall st : state unit,
    _check_scope_api_key Demo.config (Some "bEaReR s3cret") st = (Return tt, st)
    /\ _check_scope_api_key Demo.config (Some "Basic s3cret") st
       = (Raise unauthorized, st)
    /\ _check_scope_api_key Demo.config (Some "Bearer S3CRET") st
       = (Raise unauthorized, st)
    /\ _check_scope_api_key Demo.config (Some "Bearer  s3cret") st
       = (Raise unauthorized, st)
    /\ _check_scope_api_key Demo.config (Some "") st = (Raise unauthorized, st)
    /\ _check_scope_api_key Demo.config None st = (Raise unauthorized, st).
Proof.
  intros st. repeat split.
Qed.

(** ** The endpoints that read one scope *)

Lemma append_empty_r : forall s : string, s ++ "" = s.
Proof.
  induction s as [|c s IH]; simpl; [reflexivity | rewrite IH; reflexivity].
Qed.

Lemma status_not_401 :
  forall (A B : Type) (e : exn),
    ~ raises_401 (@Raise A e) ->
    response_status HTTP_200_OK (@Raise B e) <> HTTP_401_UNAUTHORIZED.
Proof.
  intros A B e H. destruct e; try discriminate.
  simpl. intros ->. apply H. eexists. reflexivity.
Qed.

Section ReadOneScope.
Variables W P : Type.
Variable C : Collaborators W P.
Variable cfg : Config.

(** C5: when the store raises [ScopeNotFound], [get_scope] turns it into
    [HTTPException(404)], whereas [get_scope_policy] and
    [get_scope_data_config] have no handler for it: the exception leaves
    the handler as it is and the framework answers 500, not 404. *)
Theorem scope_not_found_is_404_only_for_get_scope :
  forall (request : Request) (sid : string) (base_hash : option string)
         (st : state W) (w' : W),
    store_get_scope C sid (world st) = (Raise (ScopeNotFound sid), w') ->
    let st' := extend st w' [Call_get_scope sid] in
    (get_scope C sid st = (Raise (HTTPException HTTP_404_NOT_FOUND None), st')
     /\ response_status HTTP_200_OK (fst (get_scope C sid st))
        = HTTP_404_NOT_FOUND)
    /\ (route_get_scope_policy C cfg request sid base_hash st
        = (Raise (ScopeNotFound sid), st')
        /\ response_status HTTP_200_OK
             (fst (route_get_scope_policy C cfg request sid base_hash st))
           = HTTP_500_INTERNAL_SERVER_ERROR)
    /\ (route_get_scope_data_config C request sid st
        = (Raise (ScopeNotFound sid), st')
        /\ response_status HTTP_200_OK
             (fst (route_get_scope_data_config C request sid st))
           = HTTP_500_INTERNAL_SERVER_ERROR).
Proof.
  intros request sid base_hash st w' H st'.
  assert (E1 : get_scope C sid st
               = (Raise (HTTPException HTTP_404_NOT_FOUND None), st')).
  { unfold get_scope, Py.try_except. run_call H. reflexivity. }
  assert (E2 : route_get_scope_policy C cfg request sid base_hash st
               = (Raise (ScopeNotFound sid), st')).
  { unfold route_get_scope_policy, get_scope_policy. run_call H. reflexivity. }
  assert (E3 : route_get_scope_data_config C request sid st
               = (Raise (ScopeNotFound sid), st')).
  { unfold route_get_scope_data_config, get_scope_data_config.
    run_call H. reflexivity. }
  rewrite E1, E2, E3. repeat split.
Qed.

(** C10: the two read routes do not look at the Authorization header:
    changing or removing it changes nothing of what the route does.  When
    the collaborators they call raise no 401 of their own, the routes
    never answer 401; a request is served whenever the store knows the
    scope (and, for the policy, the clone opens and the bundle is made),
    whoever sends it. *)
Theorem read_routes_ignore_authorization :
  forall (request : Request) (a : option string) (sid : string)
         (base_hash : option string) (st : state W),
    route_get_scope_policy C cfg (with_authorization a request) sid base_hash st
    = route_get_scope_policy C cfg request sid base_hash st
    /\ route_get_scope_data_config C (with_authorization a request) sid st
       = route_get_scope_data_config C request sid st
    /\ (reads_raise_no_401 C ->
        response_status HTTP_200_OK
          (fst (route_get_scope_policy C cfg request sid base_hash st))
        <> HTTP_401_UNAUTHORIZED
        /\ response_status HTTP_200_OK
             (fst (route_get_scope_data_config C request sid st))
           <> HTTP_401_UNAUTHORIZED)
    /\ (forall scope w1,
           store_get_scope C sid (world st) = (Return scope, w1) ->
           route_get_scope_data_config C request sid st
           = (Return (data scope), extend st w1 [Call_get_scope sid]))
    /\ (forall scope w1 repo w2 bundle w3,
           let path := os_path_join (_get_base_dir cfg) (scope_id scope) in
           let maker :=
             {| bm_repo := repo;
                bm_directories :=
                  nodup Path_eq_dec (map pathlib_Path (directories (policy scope)));
                bm_extensions := extensions (policy scope);
                bm_manifest_filename := manifest (policy scope) |} in
           store_get_scope C sid (world st) = (Return scope, w1) ->
           git_Repo C path w1 = (Return repo, w2) ->
           make_bundle C maker repo base_hash w2 = (Return bundle, w3) ->
           route_get_scope_policy C cfg request sid base_hash st
           = (Return bundle,
              extend st w3 [Call_get_scope sid; Call_Repo path;
                            Call_make_bundle maker base_hash])).
Proof.
  intros request a sid base_hash st.
  split; [reflexivity|]. split; [reflexivity|]. split; [|split].
  - intros (Hget & Hrepo & Hmake).
    unfold route_get_scope_policy, route_get_scope_data_config,
      get_scope_policy, get_scope_data_config, Py.bind, Py.ret, invoke.
    cbv zeta. cbn [world calls].
    specialize (Hget sid (world st)).
    destruct (store_get_scope C sid (world st)) as [[scope|e] w1];
      cbn [fst world calls] in *.
    + split; [|discriminate].
      match goal with
      | |- context [git_Repo C ?p w1] =>
          specialize (Hrepo p w1);
          destruct (git_Repo C p w1) as [[repo|e] w2]
      end; cbn [fst world calls] in *.
      * match goal with
        | |- context [make_bundle C ?m repo base_hash w2] =>
            specialize (Hmake m repo base_hash w2);
            destruct (make_bundle C m repo base_hash w2) as [[b|e] w3]
        end; cbn [fst world calls] in *.
        -- discriminate.
        -- apply (status_not_401 (A := PolicyBundle)); exact Hmake.
      * apply (status_not_401 (A := Repo)); exact Hrepo.
    + split; apply (status_not_401 (A := Scope)); exact Hget.
  - intros scope w1 H.
    unfold route_get_scope_data_config, get_scope_data_config.
    run_call H. reflexivity.
  - intros scope w1 repo w2 bundle w3 path maker H1 H2 H3.
    unfold route_get_scope_policy, get_scope_policy.
    run_call H1. cbv zeta. fold path. rewrite H2. cbn [world calls].
    fold maker. rewrite H3. unfold extend.
    rewrite <- !app_assoc. reflexivity.
Qed.
End ReadOneScope.

Lemma spec_reads_raise_no_401 :
  forall cfg secret sign,
    reads_raise_no_401 (SpecModel.collaborators cfg secret sign).
Proof.
  intros cfg secret sign. repeat split; simpl.
  - intros sid w [d H]. unfold SpecModel.spec_get_scope in H.
    destruct (SpecModel.assoc sid (SpecModel.registry w)); discriminate H.
  - intros path w [d H]. unfold SpecModel.spec_git_Repo in H.
    destruct (SpecModel.assoc path (SpecModel.clones w)); discriminate H.
  - intros m repo base w [d H].
    unfold SpecModel.spec_make_bundle, SpecModel.make in H.
    destruct (SpecModel.assoc (working_dir repo) (SpecModel.clones w)) as [r|];
      [|discriminate H].
    simpl in H.
    destruct (SpecModel.find_commit r (SpecModel.HEAD r)) as [target|];
      [|discriminate H].
    destruct base as [h|]; [|discriminate H].
    destruct (SpecModel.find_commit r h) as [b|]; [|discriminate H].
    destruct (SpecModel.is_ancestor r b target); discriminate H.
Qed.

Lemma unknown_scope_responses :
  let st := start Demo.w_current in
  SpecModel.assoc "nope" (SpecModel.registry Demo.w_current) = None
  /\ response_status HTTP_200_OK (fst (get_scope Demo.C "nope" st))
     = HTTP_404_NOT_FOUND
  /\ response_status HTTP_200_OK
       (fst (route_get_scope_policy Demo.C Demo.config Demo.anonymous
                                    "nope" None st))
     = HTTP_500_INTERNAL_SERVER_ERROR
  /\ response_status HTTP_200_OK
       (fst (route_get_scope_data_config Demo.C Demo.anonymous "nope" st))
     = HTTP_500_INTERNAL_SERVER_ERROR.
Proof.
  intros st.
  pose proof (scope_not_found_is_404_only_for_get_scope
                Demo.C Demo.config Demo.anonymous (sid := "nope") None st
                (w' := Demo.w_current) eq_refl)
    as [[_ H1] [[_ H2] [_ H3]]].
  repeat split; assumption.
Defined.

Lemma anonymous_reads_demo :
  _check_scope_api_key Demo.config (authorization Demo.anonymous)
                       (start Demo.w_current)
  = (Raise unauthorized, start Demo.w_current)
  /\ route_get_scope_data_config Demo.C Demo.anonymous "demo"
                                 (start Demo.w_current)
     = (Return (data Demo.demo),
        extend (start Demo.w_current) Demo.w_current [Call_get_scope "demo"])
  /\ response_status HTTP_200_OK
       (fst (route_get_scope_policy Demo.C Demo.config Demo.anonymous
                                    "demo" (Some Demo.hash_c1) (start Demo.w_current)))
     <> HTTP_401_UNAUTHORIZED.
Proof.
  split; [reflexivity|].
  pose proof (read_routes_ignore_authorization
                Demo.C Demo.config Demo.anonymous None "demo" (Some Demo.hash_c1)
                (start Demo.w_current))
    as (_ & _ & Hno & Hdata & _).
  split.
  - apply Hdata. reflexivity.
  - apply Hno. apply spec_reads_raise_no_401.
Defined.

(** ** Registering a scope *)

Lemma assoc_upsert :
  forall (V : Type) (k : string) (v : V) (l : list (string * V)),
    SpecModel.assoc k (SpecModel.upsert k v l) = Some v.
Proof.
  intros V k v l. induction l as [|[k' v'] l IH]; simpl.
  - rewrite String.eqb_refl. reflexivity.
  - destruct (String.eqb_spec k k') as [->|Hne]; simpl.
    + rewrite String.eqb_refl. reflexivity.
    + destruct (String.eqb_spec k k'); [contradiction | exact IH].
Qed.

Lemma known_source_type_has_puller :
  forall base_dir scope,
    In (source_type (policy scope)) SpecModel.known_source_types ->
    SpecModel.new_puller base_dir scope
    = Return {| SpecModel.puller_dir := os_path_join base_dir (scope_id scope);
                SpecModel.puller_url := url (policy scope) |}.
Proof.
  intros base_dir scope H. unfold SpecModel.new_puller.
  replace (existsb (String.eqb (source_type (policy scope)))
                   SpecModel.known_source_types) with true; [reflexivity|].
  symmetry. apply existsb_exists.
  exists (source_type (policy scope)). split; [exact H | apply String.eqb_refl].
Qed.

(** The store of the specification accepts a scope whose source type has
    a puller variant, and the scope is then the one registered under its
    identifier. *)
Lemma spec_add_scope_registers :
  forall cfg scope (w : SpecModel.World),
    In (source_type (policy scope)) SpecModel.known_source_types ->
    exists w',
      SpecModel.spec_add_scope cfg scope w = (Return tt, w')
      /\ SpecModel.spec_get_scope (scope_id scope) w' = (Return scope, w').
Proof.
  intros cfg scope w H. unfold SpecModel.spec_add_scope.
  rewrite (known_source_type_has_puller _ _ H).
  eexists. split; [reflexivity|].
  unfold SpecModel.spec_get_scope. cbn [SpecModel.registry].
  rewrite assoc_upsert. reflexivity.
Qed.

Section AddScope.
Variables W P : Type.
Variable C : Collaborators W P.

Lemma add_scope_returns :
  forall scope (st : state W) w',
    store_add_scope C scope (world st) = (Return tt, w') ->
    add_scope C scope st = (Return tt, extend st w' [Call_add_scope scope]).
Proof.
  intros scope st w' H. unfold add_scope, Py.try_except.
  run_call H. reflexivity.
Qed.

Lemma add_scope_invalid_source_type :
  forall scope (st : state W) t w',
    store_add_scope C scope (world st) = (Raise (InvalidScopeSourceType t), w') ->
    add_scope C scope st
    = (Raise (HTTPException HTTP_400_BAD_REQUEST
                (Some ("Invalid scope source type: " ++ t))),
       extend st w' [Call_add_scope scope]).
Proof.
  intros scope st t w' H. unfold add_scope, Py.try_except.
  run_call H. reflexivity.
Qed.
End AddScope.

(** C6: an authorized POST /scopes.  With the store of the
    specification, a scope whose source type has a puller variant is
    added (the store then returns it under its identifier) and the
    response status is 201.  With any store, when it raises
    [InvalidScopeSourceType] the response status is 400 and the detail
    contains the offending source-type string. *)
Theorem add_scope_route_responses :
  forall (cfg : Config) (request : Request) (scope : Scope),
    ~ bearer_rejected cfg (authorization request) ->
    (forall secret sign (st : state SpecModel.World),
        In (source_type (policy scope)) SpecModel.known_source_types ->
        exists st',
          route_add_scope (SpecModel.collaborators cfg secret sign)
                          cfg request scope st
          = (Return tt, st')
          /\ response_status
               HTTP_201_CREATED
               (fst (route_add_scope (SpecModel.collaborators cfg secret sign)
                                     cfg request scope st))
             = 201%Z
          /\ SpecModel.spec_get_scope (scope_id scope) (world st')
             = (Return scope, world st'))
    /\ (forall (W P : Type) (C : Collaborators W P) (st : state W) t w',
           store_add_scope C scope (world st)
           = (Raise (InvalidScopeSourceType t), w') ->
           exists detail,
             route_add_scope C cfg request scope st
             = (Raise (HTTPException HTTP_400_BAD_REQUEST (Some detail)),
                extend st w' [Call_add_scope scope])
             /\ contains detail t
             /\ response_status HTTP_201_CREATED
                                (fst (route_add_scope C cfg request scope st))
                = 400%Z).
Proof.
  intros cfg request scope Hauth. split.
  - intros secret sign st Hknown.
    destruct (spec_add_scope_registers cfg scope (world st) Hknown)
      as (w' & Hadd & Hget).
    exists (extend st w' [Call_add_scope scope]).
    unfold route_add_scope, Py.bind.
    rewrite (check_scope_api_key_accepts st Hauth).
    rewrite (@add_scope_returns
               _ _ (SpecModel.collaborators cfg secret sign) scope st w' Hadd).
    split; [reflexivity | split; [reflexivity | exact Hget]].
  - intros W P C st t w' Hraise.
    exists ("Invalid scope source type: " ++ t).
    unfold route_add_scope, Py.bind.
    rewrite (check_scope_api_key_accepts st Hauth).
    rewrite (@add_scope_invalid_source_type _ _ C scope st t w' Hraise).
    split; [reflexivity | split; [|reflexivity]].
    exists "Invalid scope source type: ", "".
    rewrite append_empty_r. reflexivity.
Qed.

Lemma add_scope_route_examples :
  ~ bearer_rejected Demo.config (authorization Demo.admin)
  /\ (exists st',
         route_add_scope Demo.C Demo.config Demo.admin Demo.demo
                         (start Demo.w_empty)
         = (Return tt, st')
         /\ SpecModel.spec_get_scope "demo" (world st')
            = (Return Demo.demo, world st'))
  /\ (exists detail,
         route_add_scope Demo.C Demo.config Demo.admin Demo.svn_scope
                         (start Demo.w_behind)
         = (Raise (HTTPException HTTP_400_BAD_REQUEST (Some detail)),
            extend (start Demo.w_behind) Demo.w_behind
                   [Call_add_scope Demo.svn_scope])
         /\ contains detail "svn").
Proof.
  assert (Hauth : ~ bearer_rejected Demo.config (authorization Demo.admin)).
  { intros [H | [H | H]];
      [discriminate H | apply H; reflexivity | apply H; reflexivity]. }
  split; [exact Hauth|].
  destruct (@add_scope_route_responses Demo.config Demo.admin Demo.demo Hauth)
    as [Hok _].
  destruct (@add_scope_route_responses Demo.config Demo.admin Demo.svn_scope Hauth)
    as [_ Hbad].
  split.
  - destruct (Hok Demo.secret Demo.toy_sign (start Demo.w_empty))
      as (st' & E & _ & G); [left; reflexivity|].
    exists st'. split; assumption.
  - destruct (Hbad _ _ Demo.C (start Demo.w_behind) "svn" Demo.w_behind eq_refl)
      as (detail & E & Hc & _).
    exists detail. split; assumption.
Defined.

(** ** The periodic sweep *)

Section Sweep.
Variables W P : Type.
Variable C : Collaborators W P.
Variable cfg : Config.
Variable ep : PubSubEndpoint.

Lemma periodic_check_runs_loop :
  forall (st : state W) items w0,
    store_all_scopes C (world st) = (Return items, w0) ->
    periodic_check C cfg ep st
    = Py.for_each items (periodic_check_body C cfg ep)
                  (extend st w0 [Call_all_scopes]).
Proof.
  intros st items w0 H. unfold periodic_check. run_call H. reflexivity.
Qed.

Lemma body_not_polled :
  forall sid scope (st : state W),
    polling (policy scope) = false ->
    periodic_check_body C cfg ep (ScopeTuple sid scope) st = (Return tt, st).
Proof.
  intros sid scope st H. unfold periodic_check_body, Py.bind, Py.lift.
  simpl. rewrite H. reflexivity.
Qed.

Lemma body_unchanged :
  forall sid scope (st : state W) puller w1 w2,
    polling (policy scope) = true ->
    create_puller C (_get_base_dir cfg) scope (world st) = (Return puller, w1) ->
    puller_check C puller w1 = (Return false, w2) ->
    periodic_check_body C cfg ep (ScopeTuple sid scope) st
    = (Return tt,
       extend st w2 [Call_create_puller (_get_base_dir cfg) scope;
                     Call_check (scope_id scope)]).
Proof.
  intros sid scope st puller w1 w2 Hpoll Hcreate Hcheck.
  unfold periodic_check_body, Py.lift. unfold Py.bind at 1. cbn [unpack_pair].
  rewrite Hpoll. cbn [negb].
  run_call Hcreate. rewrite Hcheck. unfold Py.ret, extend.
  rewrite <- app_assoc. reflexivity.
Qed.

Lemma body_changed :
  forall sid scope (st : state W) puller w1 w2 o n w3 w4 r w5,
    polling (policy scope) = true ->
    create_puller C (_get_base_dir cfg) scope (world st) = (Return puller, w1) ->
    puller_check C puller w1 = (Return true, w2) ->
    puller_diff C puller w2 = (Return (o, n), w3) ->
    puller_pull C puller w3 = (Return tt, w4) ->
    publish_changed_directories
      C o n (ServerSideTopicPublisher ep (scope_id scope)) w4 = (r, w5) ->
    periodic_check_body C cfg ep (ScopeTuple sid scope) st
    = (r,
       extend st w5
              [Call_create_puller (_get_base_dir cfg) scope;
               Call_check (scope_id scope);
               Call_diff (scope_id scope);
               Call_pull (scope_id scope);
               Call_publish_changed_directories
                 o n (ServerSideTopicPublisher ep (scope_id scope))]).
Proof.
  intros sid scope st puller w1 w2 o n w3 w4 r w5
         Hpoll Hcreate Hcheck Hdiff Hpull Hpub.
  unfold periodic_check_body, Py.lift. unfold Py.bind at 1. cbn [unpack_pair].
  rewrite Hpoll. cbn [negb].
  run_call Hcreate. rewrite Hcheck. cbn [world calls].
  rewrite Hdiff. cbn [world calls]. rewrite Hpull. cbn [world calls].
  rewrite Hpub. unfold extend. rewrite <- !app_assoc. reflexivity.
Qed.

(** C3: a scope that the sweep reaches.  With polling disabled the sweep
    goes on to the next scope from the same state: no call at all is
    made for the scope.  With polling enabled the puller is created and
    [check()] is called; when it returns false these are the only two
    calls made for the scope; when it returns true the calls made for
    the scope are, in this order, [diff()], [pull()] and
    [publish_changed_directories] with the two commits [diff()]
    returned, each step once the one before has returned. *)
Theorem periodic_check_steps_per_scope :
  forall (pre post : list scope_item) (sid : string) (scope : Scope)
         (st : state W) (w0 : W) (st1 : state W),
    store_all_scopes C (world st)
    = (Return (pre ++ ScopeTuple sid scope :: post)%list, w0) ->
    Py.for_each pre (periodic_check_body C cfg ep)
                (extend st w0 [Call_all_scopes]) = (Return tt, st1) ->
    let rest := Py.for_each post (periodic_check_body C cfg ep) in
    let id := scope_id scope in
    let base := _get_base_dir cfg in
    (polling (policy scope) = false ->
     periodic_check C cfg ep st = rest st1)
    /\ (polling (policy scope) = true ->
        forall puller w1 w2,
          create_puller C base scope (world st1) = (Return puller, w1) ->
          (puller_check C puller w1 = (Return false, w2) ->
           periodic_check C cfg ep st
           = rest (extend st1 w2 [Call_create_puller base scope; Call_check id]))
          /\ (puller_check C puller w1 = (Return true, w2) ->
              forall o n w3 w4 r w5,
                puller_diff C puller w2 = (Return (o, n), w3) ->
                puller_pull C puller w3 = (Return tt, w4) ->
                publish_changed_directories
                  C o n (ServerSideTopicPublisher ep id) w4 = (r, w5) ->
                let st5 :=
                  extend st1 w5
                         [Call_create_puller base scope;
                          Call_check id;
                          Call_diff id;
                          Call_pull id;
                          Call_publish_changed_directories
                            o n (ServerSideTopicPublisher ep id)] in
                periodic_check C cfg ep st
                = match r with
                  | Return _ => rest st5
                  | Raise e => (Raise e, st5)
                  end)).
Proof.
  intros pre post sid scope st w0 st1 Hall Hpre rest id base.
  rewrite (periodic_check_runs_loop _ Hall).
  split.
  - intros Hpoll.
    eapply for_each_continues_after; [exact Hpre|].
    apply body_not_polled. exact Hpoll.
  - intros Hpoll puller w1 w2 Hcreate. split.
    + intros Hcheck.
      eapply for_each_continues_after; [exact Hpre|].
      eapply body_unchanged; eassumption.
    + intros Hcheck o n w3 w4 r w5 Hdiff Hpull Hpub st5.
      rewrite for_each_app, Hpre. simpl. unfold Py.bind.
      erewrite body_changed by eassumption.
      fold id base st5. destruct r as [[]|e]; reflexivity.
Qed.

(** An exception raised by the body of the loop on one element ends the
    sweep there, whatever the body is doing. *)
Lemma sweep_raises_at :
  forall (pre post : list scope_item) (item : scope_item)
         (st : state W) (w0 : W) (st1 st2 : state W) (e : exn),
    store_all_scopes C (world st) = (Return (pre ++ item :: post)%list, w0) ->
    Py.for_each pre (periodic_check_body C cfg ep)
                (extend st w0 [Call_all_scopes]) = (Return tt, st1) ->
    periodic_check_body C cfg ep item st1 = (Raise e, st2) ->
    periodic_check C cfg ep st = (Raise e, st2).
Proof.
  intros pre post item st w0 st1 st2 e Hall Hpre Hitem.
  rewrite (periodic_check_runs_loop _ Hall).
  eapply for_each_raises_at; eassumption.
Qed.

(** The body of the loop has no handler: each of its calls that raises
    ends the body with that exception, after the calls made so far. *)
Lemma body_create_puller_raises :
  forall sid scope (st : state W) e w1,
    polling (policy scope) = true ->
    create_puller C (_get_base_dir cfg) scope (world st) = (Raise e, w1) ->
    periodic_check_body C cfg ep (ScopeTuple sid scope) st
    = (Raise e, extend st w1 [Call_create_puller (_get_base_dir cfg) scope]).
Proof.
  intros sid scope st e w1 Hpoll Hcreate.
  unfold periodic_check_body, Py.lift. unfold Py.bind at 1. cbn [unpack_pair].
  rewrite Hpoll. cbn [negb].
  run_call Hcreate. reflexivity.
Qed.

Lemma body_check_raises :
  forall sid scope (st : state W) puller w1 e w2,
    polling (policy scope) = true ->
    create_puller C (_get_base_dir cfg) scope (world st) = (Return puller, w1) ->
    puller_check C puller w1 = (Raise e, w2) ->
    periodic_check_body C cfg ep (ScopeTuple sid scope) st
    = (Raise e,
       extend st w2 [Call_create_puller (_get_base_dir cfg) scope;
                     Call_check (scope_id scope)]).
Proof.
  intros sid scope st puller w1 e w2 Hpoll Hcreate Hcheck.
  unfold periodic_check_body, Py.lift. unfold Py.bind at 1. cbn [unpack_pair].
  rewrite Hpoll. cbn [negb].
  run_call Hcreate. rewrite Hcheck. unfold extend.
  rewrite <- app_assoc. reflexivity.
Qed.

Lemma body_diff_raises :
  forall sid scope (st : state W) puller w1 w2 e w3,
    polling (policy scope) = true ->
    create_puller C (_get_base_dir cfg) scope (world st) = (Return puller, w1) ->
    puller_check C puller w1 = (Return true, w2) ->
    puller_diff C puller w2 = (Raise e, w3) ->
    periodic_check_body C cfg ep (ScopeTuple sid scope) st
    = (Raise e,
       extend st w3 [Call_create_puller (_get_base_dir cfg) scope;
                     Call_check (scope_id scope);
                     Call_diff (scope_id scope)]).
Proof.
  intros sid scope st puller w1 w2 e w3 Hpoll Hcreate Hcheck Hdiff.
  unfold periodic_check_body, Py.lift. unfold Py.bind at 1. cbn [unpack_pair].
  rewrite Hpoll. cbn [negb].
  run_call Hcreate. rewrite Hcheck. cbn [world calls].
  rewrite Hdiff. unfold extend. rewrite <- !app_assoc. reflexivity.
Qed.

Lemma body_pull_raises :
  forall sid scope (st : state W) puller w1 w2 o n w3 e w4,
    polling (policy scope) = true ->
    create_puller C (_get_base_dir cfg) scope (world st) = (Return puller, w1) ->
    puller_check C puller w1 = (Return true, w2) ->
    puller_diff C puller w2 = (Return (o, n), w3) ->
    puller_pull C puller w3 = (Raise e, w4) ->
    periodic_check_body C cfg ep (ScopeTuple sid scope) st
    = (Raise e,
       extend st w4 [Call_create_puller (_get_base_dir cfg) scope;
                     Call_check (scope_id scope);
                     Call_diff (scope_id scope);
                     Call_pull (scope_id scope)]).
Proof.
  intros sid scope st puller w1 w2 o n w3 e w4 Hpoll Hcreate Hcheck Hdiff Hpull.
  unfold periodic_check_body, Py.lift. unfold Py.bind at 1. cbn [unpack_pair].
  rewrite Hpoll. cbn [negb].
  run_call Hcreate. rewrite Hcheck. cbn [world calls].
  rewrite Hdiff. cbn [world calls]. rewrite Hpull.
  unfold extend. rewrite <- !app_assoc. reflexivity.
Qed.

(** C2, as the code has it: [periodic_check] catches nothing.  For a
    polled scope that the sweep reaches, an exception raised by
    [create_puller], by [check()], by [diff()], by [pull()] or by
    [publish_changed_directories] ends the whole sweep with that
    exception, in the state reached at the failing call: the calls
    logged for the scope are those up to the failing one, and no call
    is made for any scope after it. *)
Theorem periodic_check_stops_at_first_failure :
  forall (pre post : list scope_item) (sid : string) (scope : Scope)
         (st : state W) (w0 : W) (st1 : state W) (e : exn),
    store_all_scopes C (world st)
    = (Return (pre ++ ScopeTuple sid scope :: post)%list, w0) ->
    Py.for_each pre (periodic_check_body C cfg ep)
                (extend st w0 [Call_all_scopes]) = (Return tt, st1) ->
    polling (policy scope) = true ->
    let id := scope_id scope in
    let base := _get_base_dir cfg in
    let sweep := periodic_check C cfg ep st in
    (forall w1,
        create_puller C base scope (world st1) = (Raise e, w1) ->
        sweep = (Raise e, extend st1 w1 [Call_create_puller base scope]))
    /\ (forall puller w1,
          create_puller C base scope (world st1) = (Return puller, w1) ->
          (forall w2,
              puller_check C puller w1 = (Raise e, w2) ->
              sweep = (Raise e,
                       extend st1 w2 [Call_create_puller base scope;
                                      Call_check id]))
          /\ (forall w2,
                puller_check C puller w1 = (Return true, w2) ->
                (forall w3,
                    puller_diff C puller w2 = (Raise e, w3) ->
                    sweep = (Raise e,
                             extend st1 w3 [Call_create_puller base scope;
                                            Call_check id;
                                            Call_diff id]))
                /\ (forall o n w3,
                      puller_diff C puller w2 = (Return (o, n), w3) ->
                      (forall w4,
                          puller_pull C puller w3 = (Raise e, w4) ->
                          sweep = (Raise e,
                                   extend st1 w4
                                          [Call_create_puller base scope;
                                           Call_check id;
                                           Call_diff id;
                                           Call_pull id]))
                      /\ (forall w4 w5,
                            puller_pull C puller w3 = (Return tt, w4) ->
                            publish_changed_directories
                              C o n (ServerSideTopicPublisher ep id) w4
                            = (Raise e, w5) ->
                            sweep = (Raise e,
                                     extend st1 w5
                                            [Call_create_puller base scope;
                                             Call_check id;
                                             Call_diff id;
                                             Call_pull id;
                                             Call_publish_changed_directories
                                               o n (ServerSideTopicPublisher ep id)]))))).
Proof.
  intros pre post sid scope st w0 st1 e Hall Hpre Hpoll id base sweep.
  subst sweep id base.
  split; [|intros puller w1 Hcreate; split;
           [|intros w2 Hcheck; split;
             [|intros o n w3 Hdiff; split]]].
  - intros w1 Hcreate.
    eapply sweep_raises_at; [exact Hall | exact Hpre |].
    apply body_create_puller_raises; assumption.
  - intros w2 Hcheck.
    eapply sweep_raises_at; [exact Hall | exact Hpre |].
    eapply body_check_raises; eassumption.
  - intros w3 Hdiff.
    eapply sweep_raises_at; [exact Hall | exact Hpre |].
    eapply body_diff_raises; eassumption.
  - intros w4 Hpull.
    eapply sweep_raises_at; [exact Hall | exact Hpre |].
    eapply body_pull_raises; eassumption.
  - intros w4 w5 Hpull Hpub.
    eapply sweep_raises_at; [exact Hall | exact Hpre |].
    eapply body_changed; eassumption.
Qed.

(** The sweep cannot take apart an element that is a scope object. *)
Lemma body_on_scope_object :
  forall scope (st : state W),
    periodic_check_body C cfg ep (ScopeObject scope) st
    = (Raise (ValueError "too many values to unpack (expected 2)"), st).
Proof.
  intros scope st. reflexivity.
Qed.
End Sweep.

Lemma periodic_check_demo_sweep :
  periodic_check Demo.C Demo.config Demo.endpoint (start Demo.w_behind)
  = (Return tt,
     extend (start Demo.w_behind) Demo.w_notified
            [Call_all_scopes;
             Call_create_puller "/opal/scopes" Demo.demo;
             Call_check "demo";
             Call_diff "demo";
             Call_pull "demo";
             Call_publish_changed_directories
               Demo.commit_c1 Demo.commit_c2
               (ServerSideTopicPublisher Demo.endpoint "demo")])
  /\ periodic_check Demo.C Demo.config Demo.endpoint (start Demo.w_current)
     = (Return tt,
        extend (start Demo.w_current) Demo.w_current
               [Call_all_scopes;
                Call_create_puller "/opal/scopes" Demo.demo;
                Call_check "demo"])
  /\ periodic_check Demo.C Demo.config Demo.endpoint (start Demo.w_quiet)
     = (Return tt,
        extend (start Demo.w_quiet) Demo.w_quiet [Call_all_scopes]).
Proof.
  split; [|split].
  - destruct (@periodic_check_steps_per_scope
                _ _ Demo.C Demo.config Demo.endpoint [] [] "demo" Demo.demo
                (start Demo.w_behind) Demo.w_behind
                (extend (start Demo.w_behind) Demo.w_behind [Call_all_scopes])
                eq_refl eq_refl) as [_ H].
    destruct (H eq_refl Demo.demo_puller Demo.w_behind Demo.w_behind eq_refl)
      as [_ Hchanged].
    rewrite (Hchanged eq_refl Demo.commit_c1 Demo.commit_c2
                      Demo.w_behind Demo.w_current (Return tt) Demo.w_notified
                      eq_refl eq_refl eq_refl).
    reflexivity.
  - destruct (@periodic_check_steps_per_scope
                _ _ Demo.C Demo.config Demo.endpoint [] [] "demo" Demo.demo
                (start Demo.w_current) Demo.w_current
                (extend (start Demo.w_current) Demo.w_current [Call_all_scopes])
                eq_refl eq_refl) as [_ H].
    destruct (H eq_refl Demo.demo_puller Demo.w_current Demo.w_current eq_refl)
      as [Hsame _].
    rewrite (Hsame eq_refl). reflexivity.
  - destruct (@periodic_check_steps_per_scope
                _ _ Demo.C Demo.config Demo.endpoint [] [] "quiet" Demo.quiet
                (start Demo.w_quiet) Demo.w_quiet
                (extend (start Demo.w_quiet) Demo.w_quiet [Call_all_scopes])
                eq_refl eq_refl) as [H _].
    rewrite (H eq_refl). reflexivity.
Defined.

Lemma periodic_check_offline_first :
  periodic_check Demo.C Demo.config Demo.endpoint (start Demo.w_offline_first)
  = (Raise (OtherError "FetchFailure"),
     extend (start Demo.w_offline_first) Demo.w_offline_first
            [Call_all_scopes;
             Call_create_puller "/opal/scopes" Demo.offline;
             Call_check "offline"])
  /\ periodic_check Demo.C Demo.config Demo.endpoint
                    (start SweepDemo.w_legacy_first)
     = (Raise (InvalidScopeSourceType "svn"),
        extend (start SweepDemo.w_legacy_first) SweepDemo.w_legacy_first
               [Call_all_scopes;
                Call_create_puller "/opal/scopes" Demo.svn_scope]).
Proof.
  split.
  - destruct (@periodic_check_stops_at_first_failure
                _ _ Demo.C Demo.config Demo.endpoint
                [] [ScopeTuple "demo" Demo.demo] "offline" Demo.offline
                (start Demo.w_offline_first) Demo.w_offline_first
                (extend (start Demo.w_offline_first) Demo.w_offline_first
                        [Call_all_scopes])
                (OtherError "FetchFailure") eq_refl eq_refl eq_refl)
      as [_ H].
    destruct (H SweepDemo.offline_puller Demo.w_offline_first eq_refl)
      as [Hcheck _].
    exact (Hcheck Demo.w_offline_first eq_refl).
  - destruct (@periodic_check_stops_at_first_failure
                _ _ Demo.C Demo.config Demo.endpoint
                [] [ScopeTuple "demo" Demo.demo] "legacy" Demo.svn_scope
                (start SweepDemo.w_legacy_first) SweepDemo.w_legacy_first
                (extend (start SweepDemo.w_legacy_first)
                        SweepDemo.w_legacy_first [Call_all_scopes])
                (InvalidScopeSourceType "svn") eq_refl eq_refl eq_refl)
      as [H _].
    exact (H SweepDemo.w_legacy_first eq_refl).
Defined.

(** C2 fails on the code: with [offline] registered before [demo], the
    fetch error of [offline] ends the sweep, and the puller of [demo],
    which is polled and behind its upstream, is never created. *)
Lemma sweep_does_not_isolate_failures :
  ~ sweep_isolates_failures Demo.C Demo.config Demo.endpoint.
Proof.
  intros H.
  specialize (H (start Demo.w_offline_first) Demo.w_offline_first
                [] (ScopeTuple "offline" Demo.offline) [] "demo" Demo.demo []
                (extend (start Demo.w_offline_first) Demo.w_offline_first
                        [Call_all_scopes])
                (OtherError "FetchFailure")
                (extend (start Demo.w_offline_first) Demo.w_offline_first
                        [Call_all_scopes;
                         Call_create_puller "/opal/scopes" Demo.offline;
                         Call_check "offline"])
                eq_refl eq_refl eq_refl eq_refl).
  vm_compute in H.
  destruct H as [H | [H | [H | []]]]; discriminate H.
Qed.

(** ** The webhook: the loop over the registry *)

Lemma url_matches :
  forall (u : string) (urls : list string),
    In u urls -> existsb (fun v => String.eqb u v) urls = true.
Proof.
  intros u urls H. apply existsb_exists.
  exists u. split; [exact H | apply String.eqb_refl].
Qed.

Lemma url_matches_none :
  forall (u : string) (urls : list string),
    ~ In u urls -> existsb (fun v => String.eqb u v) urls = false.
Proof.
  intros u urls H. destruct (existsb _ urls) eqn:E; [|reflexivity].
  apply existsb_exists in E. destruct E as (v & Hin & Heq).
  apply String.eqb_eq in Heq. subst v. contradiction.
Qed.

Section WebhookLoop.
Variables W P : Type.
Variable C : Collaborators W P.
Variable cfg : Config.


Lemma webhook_body_on_other_scope_object :
  forall push urls scope (st : state W),
    ~ In (url (policy scope)) urls ->
    webhook_github_body C cfg push urls (ScopeObject scope) st = (Return tt, st).
Proof.
  intros push urls scope st Hnot.
  unfold webhook_github_body, Py.lift. unfold Py.bind at 1.
  cbn [getattr_policy]. rewrite (url_matches_none _ _ Hnot). reflexivity.
Qed.

(** C8: what the handler does on a registry listed as (scope_id, scope)
    pairs, the shape the sweep takes apart.  After a valid signature, as
    soon as the listing has a first element the handler reads [.policy]
    of a tuple and raises [AttributeError]: the calls made are the
    validation and the listing, so no scope is pulled and nothing is
    published, whatever the URLs of the event and of the scopes. *)
Theorem webhook_github_raises_on_registry_pairs :
  forall (request : Request) (push : PushWebHook) (st : state W)
         (valid : bool) (w1 w2 : W) (sid : string) (scope : Scope)
         (others : list scope_item),
    x_github_event request = Some "push" ->
    validate_github_signature_or_throw C request (x_hub_signature_256 request)
                                       (world st)
    = (Return valid, w1) ->
    store_all_scopes C w1 = (Return (ScopeTuple sid scope :: others), w2) ->
    route_webhook_github C cfg request push st
    = (Raise (AttributeError "'tuple' object has no attribute 'policy'"),
       extend st w2 [Call_validate_github_signature
                       request (x_hub_signature_256 request);
                     Call_all_scopes]).
Proof.
  intros request push st valid w1 w2 sid scope others Hev Hval Hall.
  unfold route_webhook_github, webhook_github. rewrite Hev.
  rewrite String.eqb_refl. cbn [negb].
  run_call Hval. rewrite Hall. cbn [world calls].
  unfold extend. rewrite <- app_assoc. reflexivity.
Qed.
End WebhookLoop.

(** A signed push for the repository of [demo], whose source URL is the
    clone URL of the event: the clone stays at [c1] and nothing is
    published. *)
Lemma webhook_github_signed_push_on_demo :
  url (policy Demo.demo) = clone_url (repository Demo.push_event)
  /\ route_webhook_github Demo.C Demo.config Demo.signed_push Demo.push_event
                          (start Demo.w_behind)
     = (Raise (AttributeError "'tuple' object has no attribute 'policy'"),
        extend (start Demo.w_behind) Demo.w_behind
               [Call_validate_github_signature
                  Demo.signed_push (x_hub_signature_256 Demo.signed_push);
                Call_all_scopes]).
Proof.
  split; [reflexivity|].
  apply (@webhook_github_raises_on_registry_pairs
           _ _ Demo.C Demo.config Demo.signed_push Demo.push_event
           (start Demo.w_behind) true Demo.w_behind Demo.w_behind
           "demo" Demo.demo []);
    reflexivity.
Defined.

(** On a listing of scope objects the same delivery pulls [demo] and
    publishes the range from [c1] to [c2]. *)
Lemma webhook_body_pulls_scope_object :
  webhook_github_body Demo.C Demo.config Demo.push_event
    [clone_url (repository Demo.push_event);
     git_url (repository Demo.push_event);
     ssh_url (repository Demo.push_event)]
    (ScopeObject Demo.demo) (start Demo.w_behind)
  = (Return tt,
     extend (start Demo.w_behind) Demo.w_notified
            [Call_pull_scope "demo";
             Call_Repo "/opal/scopes/demo";
             Call_publish_changed_directories
               Demo.commit_c1 Demo.commit_c2
               (PublisherTask "ws://localhost:7002/ws" "ws-token" "demo")]).
Proof. reflexivity. Qed.

(** ** The policy bundle of a scope *)

Lemma tree_lookup_some_in :
  forall p c (t : list (Path * string)),
    SpecModel.tree_lookup p t = Some c -> In (p, c) t.
Proof.
  intros p c t. induction t as [|[q d] t IH]; simpl; [discriminate|].
  destruct (Path_eq_dec p q) as [->|Hne].
  - intros [= ->]. left. reflexivity.
  - intros H. right. apply IH. exact H.
Qed.

Lemma in_tree_lookup :
  forall p c (t : list (Path * string)),
    NoDup (map fst t) -> In (p, c) t -> SpecModel.tree_lookup p t = Some c.
Proof.
  intros p c t. induction t as [|[q d] t IH]; simpl; [contradiction|].
  intros Hnd Hin. inversion Hnd as [|x l Hnotin Hnd']; subst.
  destruct (Path_eq_dec p q) as [->|Hne].
  - destruct Hin as [[= ->]|Hin]; [reflexivity|].
    exfalso. apply Hnotin. apply (in_map fst) in Hin. exact Hin.
  - destruct Hin as [[= -> ->]|Hin]; [contradiction|].
    apply IH; assumption.
Qed.

Lemma written_files_spec :
  forall m base target f,
    In f (SpecModel.written_files m base target)
    <-> exists p c,
        f = {| file_path := p; content := Some c; is_deleted := false |}
        /\ In (p, c) (SpecModel.tree target)
        /\ SpecModel.selected m p = true
        /\ SpecModel.tree_lookup p (SpecModel.tree base) <> Some c.
Proof.
  intros m base target f. unfold SpecModel.written_files.
  rewrite in_map_iff. split.
  - intros ([p c] & <- & Hin). apply filter_In in Hin.
    destruct Hin as [Hin Hcond]. simpl in Hcond.
    apply andb_true_iff in Hcond. destruct Hcond as [Hsel Hdiff].
    exists p, c. repeat split; try assumption.
    intros Heq. rewrite Heq in Hdiff.
    rewrite String.eqb_refl in Hdiff. discriminate.
  - intros (p & c & -> & Hin & Hsel & Hdiff).
    exists (p, c). split; [reflexivity|].
    apply filter_In. split; [exact Hin|]. simpl.
    rewrite Hsel. simpl.
    destruct (SpecModel.tree_lookup p (SpecModel.tree base)) as [c'|];
      [|reflexivity].
    destruct (String.eqb_spec c' c) as [->|]; [|reflexivity].
    exfalso. apply Hdiff. reflexivity.
Qed.

Lemma deleted_files_spec :
  forall m base target f,
    In f (SpecModel.deleted_files m base target)
    <-> exists p c,
        f = {| file_path := p; content := None; is_deleted := true |}
        /\ In (p, c) (SpecModel.tree base)
        /\ SpecModel.selected m p = true
        /\ SpecModel.tree_lookup p (SpecModel.tree target) = None.
Proof.
  intros m base target f. unfold SpecModel.deleted_files.
  rewrite in_map_iff. split.
  - intros ([p c] & <- & Hin). apply filter_In in Hin.
    destruct Hin as [Hin Hcond]. simpl in Hcond.
    apply andb_true_iff in Hcond. destruct Hcond as [Hsel Hgone].
    exists p, c. repeat split; try assumption.
    destruct (SpecModel.tree_lookup p (SpecModel.tree target));
      [discriminate | reflexivity].
  - intros (p & c & -> & Hin & Hsel & Hgone).
    exists (p, c). split; [reflexivity|].
    apply filter_In. split; [exact Hin|]. simpl.
    rewrite Hsel, Hgone. reflexivity.
Qed.

(** The entries of a diff bundle are exactly the diff entries. *)
Lemma diff_bundle_files :
  forall m h base target f,
    tree_ok base -> tree_ok target ->
    (In f (files (SpecModel.diff_bundle m h base target))
     <-> diff_entry m base target f).
Proof.
  intros m h base target f Hb Ht. unfold SpecModel.diff_bundle, diff_entry.
  cbn [files]. rewrite in_app_iff, written_files_spec, deleted_files_spec.
  split.
  - intros [(p & c & -> & Hin & Hsel & Hdiff) | (p & c & -> & Hin & Hsel & Hgone)];
      cbn [file_path content is_deleted].
    + rewrite (@in_tree_lookup p c _ Ht Hin).
      repeat split; try assumption; try discriminate.
    + rewrite Hgone, (@in_tree_lookup p c _ Hb Hin).
      repeat split; try discriminate; try assumption; reflexivity.
  - destruct f as [p c d]. cbn [file_path content is_deleted].
    intros (Hsel & Hdiff & Hc & Hd).
    destruct (SpecModel.tree_lookup p (SpecModel.tree target)) as [ct|] eqn:Et.
    + left. exists p, ct. subst c.
      assert (d = false) as ->.
      { destruct d; [|reflexivity]. destruct Hd as [Hd _].
        discriminate (Hd eq_refl). }
      repeat split; try assumption.
      apply tree_lookup_some_in. exact Et.
    + right. subst c.
      assert (d = true) as -> by (apply Hd; reflexivity).
      destruct (SpecModel.tree_lookup p (SpecModel.tree base)) as [cb|] eqn:Eb;
        [|contradiction].
      exists p, cb. repeat split; try assumption.
      apply tree_lookup_some_in. exact Eb.
Qed.

(** The entries of a full bundle are exactly the snapshot entries. *)
Lemma full_bundle_files :
  forall m target f,
    tree_ok target ->
    (In f (files (SpecModel.full_bundle m target)) <-> snapshot_entry m target f).
Proof.
  intros m target f Ht. unfold SpecModel.full_bundle, snapshot_entry.
  cbn [files]. unfold SpecModel.full_files. rewrite in_map_iff. split.
  - intros ([p c] & <- & Hin). apply filter_In in Hin.
    destruct Hin as [Hin Hsel]. cbn [file_path content is_deleted fst snd] in *.
    rewrite (@in_tree_lookup p c _ Ht Hin).
    repeat split; try assumption; discriminate.
  - destruct f as [p c d]. cbn [file_path content is_deleted].
    intros (Hsel & Hsome & Hc & ->).
    destruct (SpecModel.tree_lookup p (SpecModel.tree target)) as [ct|] eqn:Et;
      [|contradiction].
    exists (p, ct). subst c. split; [reflexivity|].
    apply filter_In. split; [apply tree_lookup_some_in; exact Et | exact Hsel].
Qed.

Section PolicyBundles.
Variable cfg : Config.
Variable secret : string.
Variable sign : string -> string -> string.

(** For a registered scope with a clone, the handler returns what the
    bundle maker makes of the clone under the selection of the scope, for
    the base hash of the request; the world is left as it was. *)
Lemma get_scope_policy_makes_bundle :
  forall (sid : string) (scope : Scope) (repo : SpecModel.GitRepository)
         (base_hash : option string) (st : state SpecModel.World),
    let dir := os_path_join (_get_base_dir cfg) (scope_id scope) in
    SpecModel.assoc sid (SpecModel.registry (world st)) = Some scope ->
    SpecModel.assoc dir (SpecModel.clones (world st)) = Some repo ->
    get_scope_policy (SpecModel.collaborators cfg secret sign) cfg sid base_hash st
    = (SpecModel.make repo (maker_of dir scope) base_hash,
       extend st (world st)
              [Call_get_scope sid; Call_Repo dir;
               Call_make_bundle (maker_of dir scope) base_hash]).
Proof.
  intros sid scope repo base_hash st dir Hscope Hclone.
  unfold get_scope_policy, Py.bind, invoke.
  cbn [world calls store_get_scope git_Repo make_bundle SpecModel.collaborators].
  unfold SpecModel.spec_get_scope. rewrite Hscope. cbv zeta. cbn [world calls].
  fold dir. unfold SpecModel.spec_git_Repo. rewrite Hclone. cbn [world calls].
  unfold SpecModel.spec_make_bundle. cbn [working_dir]. rewrite Hclone.
  unfold extend, maker_of. rewrite <- !app_assoc. reflexivity.
Qed.

(** C4: GET /scopes/{scope_id}/policy for a registered scope whose clone
    has its head at [target].  When [base_hash] names a commit of the
    clone that is an ancestor of the target, the bundle returned is a
    diff against it: its entries are exactly the files of the selection
    of the scope (directories and extensions) at which the two trees
    differ.  When [base_hash] is absent or names no commit of the clone,
    the bundle is the full snapshot: its entries are exactly the files of
    the selection at the target. *)
Theorem get_scope_policy_diff_or_full :
  forall (request : Request) (sid : string) (scope : Scope)
         (repo : SpecModel.GitRepository) (target : SpecModel.GitCommit)
         (base_hash : option string) (st : state SpecModel.World),
    let C := SpecModel.collaborators cfg secret sign in
    let dir := os_path_join (_get_base_dir cfg) (scope_id scope) in
    let m := maker_of dir scope in
    SpecModel.assoc sid (SpecModel.registry (world st)) = Some scope ->
    SpecModel.assoc dir (SpecModel.clones (world st)) = Some repo ->
    SpecModel.find_commit repo (SpecModel.HEAD repo) = Some target ->
    tree_ok target ->
    (forall h base,
        base_hash = Some h ->
        SpecModel.find_commit repo h = Some base ->
        SpecModel.is_ancestor repo base target = true ->
        tree_ok base ->
        exists bundle st',
          route_get_scope_policy C cfg request sid base_hash st
          = (Return bundle, st')
          /\ world st' = world st
          /\ old_hash bundle = Some h
          /\ forall f, In f (files bundle) <-> diff_entry m base target f)
    /\ (base_hash = None
        \/ (exists h, base_hash = Some h /\ SpecModel.find_commit repo h = None) ->
        exists bundle st',
          route_get_scope_policy C cfg request sid base_hash st
          = (Return bundle, st')
          /\ world st' = world st
          /\ old_hash bundle = None
          /\ forall f, In f (files bundle) <-> snapshot_entry m target f).
Proof.
  intros request sid scope repo target base_hash st C dir m
         Hscope Hclone Hhead Htarget.
  unfold route_get_scope_policy, C.
  rewrite (get_scope_policy_makes_bundle _ _ _ Hscope Hclone).
  fold dir m. unfold SpecModel.make. rewrite Hhead. split.
  - intros h base -> Hbase Hanc Hb. rewrite Hbase, Hanc.
    eexists. eexists. split; [reflexivity|].
    split; [reflexivity|]. split; [reflexivity|].
    intros f. apply diff_bundle_files; assumption.
  - intros [-> | (h & -> & Hnone)]; [|rewrite Hnone];
      (eexists; eexists; split; [reflexivity|];
       split; [reflexivity|]; split; [reflexivity|];
       intros f; apply full_bundle_files; assumption).
Qed.
End PolicyBundles.

Lemma demo_trees_ok : tree_ok Demo.c1 /\ tree_ok Demo.c2.
Proof.
  unfold tree_ok. split.
  - change (map fst (SpecModel.tree Demo.c1))
      with (nodup Path_eq_dec (map fst (SpecModel.tree Demo.c1))).
    apply NoDup_nodup.
  - change (map fst (SpecModel.tree Demo.c2))
      with (nodup Path_eq_dec (map fst (SpecModel.tree Demo.c2))).
    apply NoDup_nodup.
Qed.

Lemma get_scope_policy_demo :
  (exists bundle st',
      route_get_scope_policy Demo.C Demo.config Demo.anonymous
                             "demo" (Some Demo.hash_c1) (start Demo.w_current)
      = (Return bundle, st')
      /\ world st' = Demo.w_current
      /\ old_hash bundle = Some Demo.hash_c1
      /\ forall f,
          In f (files bundle)
          <-> diff_entry (maker_of "/opal/scopes/demo" Demo.demo)
                         Demo.c1 Demo.c2 f)
  /\ (exists bundle st',
         route_get_scope_policy Demo.C Demo.config Demo.anonymous
                                "demo" None (start Demo.w_current)
         = (Return bundle, st')
         /\ world st' = Demo.w_current
         /\ old_hash bundle = None
         /\ forall f,
             In f (files bundle)
             <-> snapshot_entry (maker_of "/opal/scopes/demo" Demo.demo)
                                Demo.c2 f).
Proof.
  destruct demo_trees_ok as [H1 H2].
  split.
  - destruct (@get_scope_policy_diff_or_full
                Demo.config Demo.secret Demo.toy_sign Demo.anonymous
                "demo" Demo.demo Demo.repo_at_c2 Demo.c2 (Some Demo.hash_c1)
                (start Demo.w_current) eq_refl eq_refl eq_refl H2) as [Hdiff _].
    exact (Hdiff Demo.hash_c1 Demo.c1 eq_refl eq_refl eq_refl H1).
  - destruct (@get_scope_policy_diff_or_full
                Demo.config Demo.secret Demo.toy_sign Demo.anonymous
                "demo" Demo.demo Demo.repo_at_c2 Demo.c2 None
                (start Demo.w_current) eq_refl eq_refl eq_refl H2) as [_ Hfull].
    exact (Hfull (or_introl eq_refl)).
Defined.

(** The two bundles of [demo] at [c2]: against [c1], the rewritten
    [x.rego] and the deleted [old.rego] ([y.rego] is unchanged,
    [notes.txt] and [README.md] are outside the selection); with no base,
    the two selected files of [c2]. *)
Lemma get_scope_policy_demo_bundles :
  fst (route_get_scope_policy Demo.C Demo.config Demo.anonymous
                              "demo" (Some Demo.hash_c1) (start Demo.w_current))
  = Return {| hash := Demo.hash_c2 ++ ";policies;.rego;.manifest";
              old_hash := Some Demo.hash_c1;
              files :=
                [ {| file_path := ["policies"; "x.rego"];
                     content := Some "allow = true";
                     is_deleted := false |};
                  {| file_path := ["policies"; "old.rego"];
                     content := None;
                     is_deleted := true |} ];
              manifest_content := None |}
  /\ fst (route_get_scope_policy Demo.C Demo.config Demo.anonymous
                                 "demo" None (start Demo.w_current))
     = Return {| hash := Demo.hash_c2 ++ ";policies;.rego;.manifest";
                 old_hash := None;
                 files :=
                   [ {| file_path := ["policies"; "x.rego"];
                        content := Some "allow = true";
                        is_deleted := false |};
                     {| file_path := ["policies"; "y.rego"];
                        content := Some "deny = true";
                        is_deleted := false |} ];
                 manifest_content := None |}.
Proof. split; reflexivity. Qed.

(** ** Preloading the scopes of the backend *)

Lemma added_scopes_app :
  forall l1 l2 : list preload_call,
    added_scopes (l1 ++ l2) = (added_scopes l1 ++ added_scopes l2)%list.
Proof.
  induction l1 as [|c l1 IH]; intros l2; [reflexivity|].
  destruct c; simpl; rewrite IH; reflexivity.
Qed.

Lemma added_scopes_map :
  forall l : list Scope, added_scopes (map Pre_add_scope l) = l.
Proof.
  induction l as [|s l IH]; simpl; [reflexivity | rewrite IH; reflexivity].
Qed.

Section PreloadTheorems.
Variables W Redis Store Session Resp Json : Type.
Variable PC : PreloadCollaborators W Redis Store Session Resp Json.

(** The loop over the scopes of the backend calls [add_scope] on a
    prefix of them, in their order: all of them when it returns, up to
    the one that raised otherwise. *)
Lemma preload_loop_log :
  forall (store : Store) (scopes : list Scope) (st : pstate W) r st',
    Py.for_each scopes
      (fun scope =>
         pinvoke (Pre_add_scope scope) (scope_store_add_scope PC store scope)) st
    = (r, st') ->
    exists k,
      pcalls st' = (pcalls st ++ map Pre_add_scope (firstn k scopes))%list
      /\ (r = Return tt -> firstn k scopes = scopes).
Proof.
  intros store scopes. induction scopes as [|s rest IH]; intros st r st' Hrun.
  - simpl in Hrun. injection Hrun as <- <-. exists 0. simpl.
    rewrite app_nil_r. split; reflexivity.
  - simpl in Hrun. unfold Py.bind, pinvoke in Hrun.
    destruct (scope_store_add_scope PC store s (pworld st)) as [[u|e] w'].
    + apply IH in Hrun. destruct Hrun as (k & Hlog & Hall).
      exists (Datatypes.S k). cbn [pcalls] in Hlog. split.
      * rewrite Hlog, <- app_assoc. reflexivity.
      * intros Hr. simpl. rewrite (Hall Hr). reflexivity.
    + injection Hrun as <- <-. exists 1. split; [reflexivity|].
      discriminate.
Qed.

(** The loop returns when every [add_scope] returns. *)
Lemma preload_loop_returns :
  forall (store : Store) (scopes : list Scope) (st : pstate W) w',
    adds_return (scope_store_add_scope PC) store scopes (pworld st) = Some w' ->
    Py.for_each scopes
      (fun scope =>
         pinvoke (Pre_add_scope scope) (scope_store_add_scope PC store scope)) st
    = (Return tt,
       {| pworld := w'; pcalls := pcalls st ++ map Pre_add_scope scopes |}).
Proof.
  intros store scopes. induction scopes as [|s rest IH]; intros st w' H.
  - simpl in H. injection H as <-. simpl. rewrite app_nil_r.
    destruct st; reflexivity.
  - simpl in H. simpl. unfold Py.bind. unfold pinvoke at 1.
    destruct (scope_store_add_scope PC store s (pworld st)) as [[u|e] w1];
      [|discriminate H].
    erewrite IH by exact H.
    cbn [pcalls]. rewrite <- app_assoc. reflexivity.
Qed.

(** The first [add_scope] that raises ends the loop: the scopes after
    it are not handed to the store. *)
Lemma preload_loop_raises :
  forall (store : Store) (pre : list Scope) s post (st : pstate W) w1 e w2,
    adds_return (scope_store_add_scope PC) store pre (pworld st) = Some w1 ->
    scope_store_add_scope PC store s w1 = (Raise e, w2) ->
    Py.for_each (pre ++ s :: post)
      (fun scope =>
         pinvoke (Pre_add_scope scope) (scope_store_add_scope PC store scope)) st
    = (Raise e,
       {| pworld := w2;
          pcalls := pcalls st ++ map Pre_add_scope (pre ++ [s]) |}).
Proof.
  intros store pre s post st w1 e w2 Hpre Hs.
  rewrite for_each_app. erewrite preload_loop_returns by exact Hpre.
  simpl. unfold Py.bind. unfold pinvoke at 1. cbn [pworld pcalls]. rewrite Hs.
  rewrite map_app, app_assoc. reflexivity.
Qed.

(** X2: [preload_scopes] with a configured key, when the store and the
    session are built and the backend answers a list of scopes: the
    function returns without raising; [add_scope] is called on a prefix
    of the scopes the backend served, in the order served, and on all of
    them unless an exception was caught and logged.  When [add_scope]
    returns on every scope, all of them are added.  The first
    [add_scope] that raises ends the loop: the scopes added are those
    up to and including the one refused, none of the scopes served
    after it is handed to the store, and an exception is logged. *)
Theorem preload_scopes_adds_in_order :
  forall (cfg : PreloadConfig) (st : pstate W)
         redis w1 store w2 session w3 resp w4 json w5 scopes,
    let base := server_config cfg in
    let url := BACKEND_URL cfg ++ "/v1/scopes" in
    SCOPE_API_KEY base <> "" ->
    new_RedisDB PC (REDIS_URL cfg) (pworld st) = (Return redis, w1) ->
    new_ScopeStore PC (_get_base_dir base) redis w1 = (Return store, w2) ->
    new_ClientSession PC (preload_headers base) w2 = (Return session, w3) ->
    session_get PC session url w3 = (Return resp, w4) ->
    response_json PC resp w4 = (Return json, w5) ->
    parse_obj_as_scopes PC json = Return scopes ->
    exists k tr,
      fst (preload_scopes PC cfg st) = Return tt
      /\ pcalls (snd (preload_scopes PC cfg st)) = (pcalls st ++ tr)%list
      /\ added_scopes tr = firstn k scopes
      /\ ((forall e, ~ In (Pre_logger_catch e) tr) -> added_scopes tr = scopes)
      /\ (forall w6,
             adds_return (scope_store_add_scope PC) store scopes w5 = Some w6 ->
             added_scopes tr = scopes)
      /\ (forall pre s post w6 e w7,
             scopes = (pre ++ s :: post)%list ->
             adds_return (scope_store_add_scope PC) store pre w5 = Some w6 ->
             scope_store_add_scope PC store s w6 = (Raise e, w7) ->
             added_scopes tr = (pre ++ [s])%list
             /\ exists e', In (Pre_logger_catch e') tr).
Proof.
  intros cfg st redis w1 store w2 session w3 resp w4 json w5 scopes base url
         Hkey Hredis Hstore Hsession Hget Hjson Hparse.
  destruct (preload_scopes PC cfg st) as [rf stf] eqn:Erun. cbn [fst snd].
  unfold preload_scopes, logger_catch, async_with, preload_from_response,
    Py.bind, Py.lift in Erun.
  unfold pinvoke at 1 in Erun. cbn [pworld pcalls] in Erun. rewrite Hredis in Erun.
  unfold pinvoke at 1 in Erun. cbn [pworld pcalls] in Erun. fold base in Erun.
  rewrite Hstore in Erun.
  destruct (String.eqb_spec (SCOPE_API_KEY base) "") as [E|_]; [contradiction|].
  cbv zeta in Erun.
  unfold pinvoke at 1 in Erun. cbn [pworld pcalls] in Erun. rewrite Hsession in Erun.
  unfold pinvoke at 1 in Erun. cbn [pworld pcalls] in Erun. fold url in Erun.
  rewrite Hget in Erun.
  unfold pinvoke at 1 in Erun. cbn [pworld pcalls] in Erun.
  rewrite Hjson, Hparse in Erun.
  match type of Erun with
  | context [Py.for_each scopes ?body ?s0] =>
      destruct (Py.for_each scopes body s0) as [rl stl] eqn:Eloop
  end.
  assert (Hsucc : forall w6,
             adds_return (scope_store_add_scope PC) store scopes w5 = Some w6 ->
             rl = Return tt).
  { intros w6 H6.
    erewrite preload_loop_returns in Eloop by exact H6.
    injection Eloop as <- _. reflexivity. }
  assert (Hfail : forall pre s post w6 e w7,
             scopes = (pre ++ s :: post)%list ->
             adds_return (scope_store_add_scope PC) store pre w5 = Some w6 ->
             scope_store_add_scope PC store s w6 = (Raise e, w7) ->
             rl = Raise e
             /\ pcalls stl
                = ((((((pcalls st ++ [Pre_RedisDB (REDIS_URL cfg)])
                       ++ [Pre_ScopeStore (_get_base_dir base)])
                      ++ [Pre_ClientSession (preload_headers base)])
                     ++ [Pre_session_get url])
                    ++ [Pre_resp_json])
                   ++ map Pre_add_scope (pre ++ [s]))%list).
  { intros pre s post w6 e w7 Hsplit H6 H7. subst scopes.
    erewrite preload_loop_raises in Eloop by (exact H6 || exact H7).
    injection Eloop as <- <-. split; reflexivity. }
  apply preload_loop_log in Eloop. destruct Eloop as (k & Hlog & Hall).
  cbn [pcalls] in Hlog.
  assert (Hfail' : forall pre s post w6 e w7,
             scopes = (pre ++ s :: post)%list ->
             adds_return (scope_store_add_scope PC) store pre w5 = Some w6 ->
             scope_store_add_scope PC store s w6 = (Raise e, w7) ->
             rl = Raise e /\ firstn k scopes = (pre ++ [s])%list).
  { intros pre s post w6 e w7 Hsplit H6 H7.
    destruct (Hfail pre s post w6 e w7 Hsplit H6 H7) as [Hr Hl].
    split; [exact Hr|].
    rewrite Hlog in Hl. apply app_inv_head in Hl.
    rewrite <- (added_scopes_map (firstn k scopes)), Hl.
    apply added_scopes_map. }
  clear Hfail.
  unfold pinvoke in Erun. cbn [pworld pcalls] in Erun.
  destruct (response_release PC resp (pworld stl)) as [[u1|e1] w6];
    cbn [pworld pcalls] in Erun;
    destruct (session_close PC session w6) as [[u2|e2] w7];
    cbn [pworld pcalls] in Erun.
  all: destruct rl as [[]|el]; injection Erun as <- <-; cbn [pcalls];
    rewrite Hlog; exists k; eexists;
    (split; [reflexivity|]);
    (split; [rewrite <- !app_assoc; reflexivity|]);
    (split;
     [simpl; rewrite ?added_scopes_app, ?added_scopes_map; simpl;
      rewrite ?app_nil_r; reflexivity|]);
    (split;
     [intros Hno;
      first [ simpl; rewrite ?added_scopes_app, ?added_scopes_map; simpl;
              rewrite ?app_nil_r; apply Hall; reflexivity
            | exfalso; eapply Hno; simpl; do 5 right; apply in_or_app; right;
              simpl; auto 10 ]|]);
    (split;
     [intros w8 H8; simpl; rewrite ?added_scopes_app, ?added_scopes_map; simpl;
      rewrite ?app_nil_r; apply Hall; exact (Hsucc w8 H8)|]);
    intros pre s post w8 e w9 Hsplit H8 H9;
    destruct (Hfail' pre s post w8 e w9 Hsplit H8 H9) as [Hr Hk];
    try discriminate Hr;
    (split;
     [simpl; rewrite ?added_scopes_app, ?added_scopes_map; simpl;
      rewrite ?app_nil_r; exact Hk
     |eexists; simpl; do 5 right; apply in_or_app; right; simpl; eauto 10]).
Qed.

(** X1: [preload_scopes] with the empty key (preloading disabled): the
    function returns without raising after building its store; it opens
    no session, sends no request and adds no scope. *)
Theorem preload_scopes_without_key :
  forall (cfg : PreloadConfig) (st : pstate W),
    SCOPE_API_KEY (server_config cfg) = "" ->
    exists tr,
      fst (preload_scopes PC cfg st) = Return tt
      /\ pcalls (snd (preload_scopes PC cfg st)) = (pcalls st ++ tr)%list
      /\ forallb (fun c => negb (reaches_backend c)) tr = true.
Proof.
  intros cfg st Hkey.
  destruct (preload_scopes PC cfg st) as [rf stf] eqn:Erun. cbn [fst snd].
  unfold preload_scopes, logger_catch, Py.bind, Py.ret, pinvoke in Erun.
  rewrite Hkey in Erun. cbn [pworld pcalls String.eqb] in Erun.
  destruct (new_RedisDB PC (REDIS_URL cfg) (pworld st)) as [[redis|e] w1];
    cbn [pworld pcalls] in Erun.
  - destruct (new_ScopeStore PC (_get_base_dir (server_config cfg)) redis w1)
      as [[store|e] w2];
      injection Erun as <- <-; cbn [pcalls]; eexists;
      (split; [reflexivity|]);
      (split; [rewrite <- !app_assoc; reflexivity | reflexivity]).
  - injection Erun as <- <-. cbn [pcalls]. eexists.
    split; [reflexivity|].
    split; [rewrite <- !app_assoc; reflexivity | reflexivity].
Qed.
End PreloadTheorems.



Lemma preload_scopes_without_key_demo :
  SCOPE_API_KEY (server_config PreloadDemo.no_key) = ""
  /\ exists tr,
      fst (preload_scopes PreloadDemo.PC PreloadDemo.no_key
                          (PreloadDemo.begin None)) = Return tt
      /\ pcalls (snd (preload_scopes PreloadDemo.PC PreloadDemo.no_key
                                     (PreloadDemo.begin None)))
         = tr
      /\ forallb (fun c => negb (reaches_backend c)) tr = true.
Proof.
  split; [reflexivity|].
  exact (@preload_scopes_without_key
           _ _ _ _ _ _ PreloadDemo.PC PreloadDemo.no_key
           (PreloadDemo.begin None) eq_refl).
Defined.

Lemma preload_scopes_demo :
  exists k tr,
    fst (preload_scopes PreloadDemo.PC PreloadDemo.config
                        (PreloadDemo.begin (Some "legacy"))) = Return tt
    /\ pcalls (snd (preload_scopes PreloadDemo.PC PreloadDemo.config
                                   (PreloadDemo.begin (Some "legacy"))))
       = tr
    /\ added_scopes tr = firstn k PreloadDemo.served
    /\ ((forall e, ~ In (Pre_logger_catch e) tr) ->
        added_scopes tr = PreloadDemo.served)
    /\ added_scopes tr = [Demo.quiet; Demo.svn_scope]
    /\ exists e', In (Pre_logger_catch e') tr.
Proof.
  destruct (@preload_scopes_adds_in_order
              _ _ _ _ _ _ PreloadDemo.PC PreloadDemo.config
              (PreloadDemo.begin (Some "legacy"))
              tt (Some "legacy") tt (Some "legacy") tt (Some "legacy")
              tt (Some "legacy") PreloadDemo.served (Some "legacy")
              PreloadDemo.served
              ltac:(discriminate) eq_refl eq_refl eq_refl eq_refl eq_refl eq_refl)
    as (k & tr & Hret & Hlog & Hprefix & Hall & _ & Hfirst).
  exists k, tr.
  split; [exact Hret|].
  split; [exact Hlog|].
  split; [exact Hprefix|].
  split; [exact Hall|].
  exact (Hfirst [Demo.quiet] Demo.svn_scope [Demo.demo]
                (Some "legacy") (InvalidScopeSourceType "svn") (Some "legacy")
                eq_refl eq_refl eq_refl).
Defined.

(** With a store that refuses the second of three scopes served, the
    first two are handed to [add_scope], the third is not, and the
    refusal is logged; with a store that refuses none, all three are
    added and nothing is logged. *)
Lemma preload_scopes_demo_logs :
  pcalls (snd (preload_scopes PreloadDemo.PC PreloadDemo.config
                              (PreloadDemo.begin (Some "legacy"))))
  = [Pre_RedisDB "redis://localhost";
     Pre_ScopeStore "/opal/scopes";
     Pre_ClientSession [("Authorization", "Bearer s3cret")];
     Pre_session_get "https://backend.example/v1/scopes";
     Pre_resp_json;
     Pre_add_scope Demo.quiet;
     Pre_add_scope Demo.svn_scope;
     Pre_release_response;
     Pre_close_session;
     Pre_logger_catch (InvalidScopeSourceType "svn")]
  /\ added_scopes
       (pcalls (snd (preload_scopes PreloadDemo.PC PreloadDemo.config
                                    (PreloadDemo.begin None))))
     = PreloadDemo.served.
Proof. split; reflexivity. Qed.

(** ** The bearer dependency on headers of a given form *)

Lemma partition_space_no_space :
  forall s : string, no_space s = true -> partition_space s = (s, "").
Proof.
  induction s as [|c s IH]; simpl; [reflexivity|].
  intros H. apply andb_true_iff in H. destruct H as [Hc Hs].
  destruct (Ascii.eqb c " "%char); [discriminate Hc|].
  rewrite (IH Hs). reflexivity.
Qed.

Lemma partition_space_app :
  forall s t : string,
    no_space s = true -> partition_space (s ++ " " ++ t) = (s, t).
Proof.
  induction s as [|c s IH]; simpl in *; intros t H; [reflexivity|].
  apply andb_true_iff in H. destruct H as [Hc Hs].
  destruct (Ascii.eqb c " "%char); [discriminate Hc|].
  rewrite (IH t Hs). reflexivity.
Qed.

Section BearerForms.
Variable W : Type.
Variable cfg : Config.

(** X4: A header made of a scheme without space, one space and a token is
    accepted exactly when the scheme is [bearer] in any case and the
    token, spaces included, is the configured key. *)
Theorem bearer_header_with_token :
  forall (scheme token : string) (st : state W),
    no_space scheme = true ->
    (_check_scope_api_key cfg (Some (scheme ++ " " ++ token)) st = (Return tt, st)
     <-> lower scheme = "bearer" /\ token = SCOPE_API_KEY cfg).
Proof.
  intros scheme token st Hns.
  assert (Hne : scheme ++ " " ++ token <> "") by (destruct scheme; discriminate).
  unfold _check_scope_api_key, falsy.
  destruct (String.eqb_spec (scheme ++ " " ++ token) "") as [E|_];
    [contradiction|].
  rewrite (scheme_param_of_nonempty Hne), (@partition_space_app scheme token Hns).
  destruct (String.eqb_spec (lower scheme) "bearer") as [Hs|Hs];
    destruct (String.eqb_spec token (SCOPE_API_KEY cfg)) as [Ht|Ht];
    simpl; split; try (intros [? ?]; contradiction); try discriminate;
    intros; try split; try reflexivity; assumption.
Qed.

(** X5: A header without any space is accepted exactly when it is [bearer]
    in any case and the configured key is empty: with the empty key a
    bare [Bearer] opens the protected routes. *)
Theorem bearer_header_without_space :
  forall (header : string) (st : state W),
    no_space header = true ->
    (_check_scope_api_key cfg (Some header) st = (Return tt, st)
     <-> lower header = "bearer" /\ SCOPE_API_KEY cfg = "").
Proof.
  intros header st Hns. unfold _check_scope_api_key, falsy.
  destruct (String.eqb_spec header "") as [->|Hne].
  - split; [discriminate | intros [H _]; discriminate H].
  - rewrite (scheme_param_of_nonempty Hne), (@partition_space_no_space header Hns).
    destruct (String.eqb_spec (lower header) "bearer") as [Hs|Hs];
      destruct (String.eqb_spec "" (SCOPE_API_KEY cfg)) as [Ht|Ht];
      simpl; split; try (intros [? ?]; try contradiction; congruence);
      try discriminate;
      intros; try split; try reflexivity; try assumption; congruence.
Qed.
End BearerForms.

Lemma bearer_header_with_token_demo :
  no_space "BEARER" = true
  /\ _check_scope_api_key Demo.config (Some "BEARER s3cret") (start Demo.w_current)
     = (Return tt, start Demo.w_current).
Proof.
  split; [reflexivity|].
  apply (proj2 (@bearer_header_with_token
                  _ Demo.config "BEARER" "s3cret" (start Demo.w_current)
                  eq_refl)).
  split; reflexivity.
Defined.

Lemma bare_bearer_with_empty_key :
  no_space "Bearer" = true
  /\ _check_scope_api_key (server_config PreloadDemo.no_key) (Some "Bearer")
                          (start Demo.w_current)
     = (Return tt, start Demo.w_current)
  /\ _check_scope_api_key Demo.config (Some "Bearer") (start Demo.w_current)
     <> (Return tt, start Demo.w_current).
Proof.
  split; [reflexivity|]. split.
  - apply (proj2 (@bearer_header_without_space
                    _ (server_config PreloadDemo.no_key) "Bearer"
                    (start Demo.w_current) eq_refl)).
    split; reflexivity.
  - intros H.
    apply (proj1 (@bearer_header_without_space
                    _ Demo.config "Bearer" (start Demo.w_current) eq_refl)) in H.
    destruct H as [_ H]. discriminate H.
Defined.

(** ** The call log of a loop over the registry *)

(** What every body of a loop adds to the log, the loop adds too, when
    it holds of the empty log and of two logs put end to end. *)
Lemma for_each_log :
  forall (W A : Type) (body : A -> HandlerM W unit) (Q : list call -> Prop),
    Q [] ->
    (forall l1 l2, Q l1 -> Q l2 -> Q (l1 ++ l2)%list) ->
    (forall x st, exists tr,
        calls (snd (body x st)) = (calls st ++ tr)%list /\ Q tr) ->
    forall xs st, exists tr,
      calls (snd (Py.for_each xs body st)) = (calls st ++ tr)%list /\ Q tr.
Proof.
  intros W A body Q Hnil Happ Hbody xs.
  induction xs as [|x xs IH]; intros st.
  - exists []. simpl. rewrite app_nil_r. split; [reflexivity | exact Hnil].
  - simpl. unfold Py.bind.
    destruct (Hbody x st) as (tr1 & E1 & Q1).
    destruct (body x st) as [[u|e] st1]; cbn [snd] in *.
    + destruct (IH st1) as (tr2 & E2 & Q2).
      exists (tr1 ++ tr2)%list. rewrite E2, E1, app_assoc.
      split; [reflexivity | apply Happ; assumption].
    + exists tr1. split; assumption.
Qed.

Lemma no_publish_follows_pull :
  forall ep (l : list call),
    Forall (fun c => forall o n pub,
                c <> Call_publish_changed_directories o n pub) l ->
    publish_follows_pull ep l.
Proof.
  intros ep l H pre o n pub post E. subst l.
  apply Forall_elt in H. exfalso. apply (H o n pub). reflexivity.
Qed.

Lemma publish_follows_pull_app :
  forall ep l1 l2,
    publish_follows_pull ep l1 -> publish_follows_pull ep l2 ->
    publish_follows_pull ep (l1 ++ l2).
Proof.
  intros ep l1 l2 H1 H2 pre o n pub post E.
  apply app_eq_app in E. destruct E as (l & [[E1 E2] | [E1 E2]]).
  - destruct l as [|y l].
    + simpl in E2. rewrite app_nil_r in E1. subst pre.
      destruct (H2 [] o n pub post (eq_sym E2)) as (pre' & sid & Hpre & _).
      destruct pre'; discriminate Hpre.
    + injection E2 as <- ->. exact (H1 pre o n pub l E1).
  - destruct (H2 l o n pub post E2) as (pre' & sid & Hpre & Hpub).
    exists (l1 ++ pre')%list, sid. subst. rewrite app_assoc.
    split; reflexivity.
Qed.

Lemma publish_after_pull :
  forall ep pre0 sid o n,
    Forall (fun c => forall o n pub,
                c <> Call_publish_changed_directories o n pub) pre0 ->
    publish_follows_pull
      ep ((pre0 ++ [Call_check sid; Call_diff sid; Call_pull sid])
          ++ [Call_publish_changed_directories
                o n (ServerSideTopicPublisher ep sid)]).
Proof.
  intros ep pre0 sid o n H pre o' n' pub post E.
  assert (HA : Forall (fun c => forall o n pub,
                           c <> Call_publish_changed_directories o n pub)
                      (pre0 ++ [Call_check sid; Call_diff sid; Call_pull sid])).
  { apply Forall_app. split; [exact H|].
    repeat constructor; discriminate. }
  apply app_eq_app in E. destruct E as (l & [[E1 E2] | [E1 E2]]).
  - destruct l as [|y l].
    + simpl in E2. injection E2 as Ho Hn Hpub Hpost. rewrite app_nil_r in E1.
      exists pre0, sid. split; [symmetry; exact E1 | exact Hpub].
    + injection E2 as <- E2. rewrite E1 in HA. apply Forall_elt in HA.
      exfalso. apply (HA o' n' pub). reflexivity.
  - destruct l as [|y l].
    + simpl in E2. injection E2 as Ho Hn Hpub Hpost. rewrite app_nil_r in E1.
      exists pre0, sid. split; [exact E1 | symmetry; exact Hpub].
    + injection E2 as _ E2. destruct l; discriminate E2.
Qed.

(** ** What a sweep can log *)

Section SweepLog.
Variables W P : Type.
Variable C : Collaborators W P.
Variable cfg : Config.
Variable ep : PubSubEndpoint.

Lemma sweep_body_log :
  forall (item : scope_item) (st : state W),
  exists tr,
    calls (snd (periodic_check_body C cfg ep item st)) = (calls st ++ tr)%list
    /\ (publish_follows_pull ep tr
        /\ Forall (fun c => is_puller_call c = true) tr).
Proof.
  intros [sid scope|scope] st.
  2:{ exists []. simpl. rewrite app_nil_r.
      split; [reflexivity|].
      split; [apply no_publish_follows_pull|]; constructor. }
  unfold periodic_check_body, Py.lift. unfold Py.bind at 1. cbn [unpack_pair].
  destruct (polling (policy scope)); cbn [negb].
  2:{ exists []. simpl. rewrite app_nil_r.
      split; [reflexivity|].
      split; [apply no_publish_follows_pull|]; constructor. }
  unfold Py.bind, Py.ret, invoke. cbn [world calls].
  destruct (create_puller C (_get_base_dir cfg) scope (world st))
    as [[puller|e] w1]; cbn [world calls snd].
  2:{ eexists. split; [reflexivity|].
      split; [apply no_publish_follows_pull|];
        repeat constructor; discriminate. }
  destruct (puller_check C puller w1) as [[[|]|e] w2]; cbn [world calls snd].
  2,3: eexists; (split; [rewrite <- !app_assoc; reflexivity|]);
       (split; [apply no_publish_follows_pull|]);
       repeat constructor; discriminate.
  destruct (puller_diff C puller w2) as [[[o n]|e] w3]; cbn [world calls snd].
  2:{ eexists. split; [rewrite <- !app_assoc; reflexivity|].
      split; [apply no_publish_follows_pull|];
        repeat constructor; discriminate. }
  destruct (puller_pull C puller w3) as [[u|e] w4]; cbn [world calls snd].
  2:{ eexists. split; [rewrite <- !app_assoc; reflexivity|].
      split; [apply no_publish_follows_pull|];
        repeat constructor; discriminate. }
  destruct (publish_changed_directories
              C o n (ServerSideTopicPublisher ep (scope_id scope)) w4)
    as [r w5]; cbn [world calls snd].
  exists (([Call_create_puller (_get_base_dir cfg) scope]
           ++ [Call_check (scope_id scope); Call_diff (scope_id scope);
               Call_pull (scope_id scope)])
          ++ [Call_publish_changed_directories
                o n (ServerSideTopicPublisher ep (scope_id scope))])%list.
  split; [simpl; rewrite <- !app_assoc; reflexivity|].
  split; [apply publish_after_pull|]; repeat constructor; discriminate.
Qed.

Lemma sweep_log :
  forall st : state W,
  exists tr,
    calls (snd (periodic_check C cfg ep st))
    = (calls st ++ Call_all_scopes :: tr)%list
    /\ (publish_follows_pull ep tr
        /\ Forall (fun c => is_puller_call c = true) tr).
Proof.
  intros st. unfold periodic_check, Py.bind, invoke. cbn [world calls].
  destruct (store_all_scopes C (world st)) as [[items|e] w0].
  - destruct (@for_each_log
                W scope_item (periodic_check_body C cfg ep)
                (fun tr => publish_follows_pull ep tr
                           /\ Forall (fun c => is_puller_call c = true) tr))
      with (xs := items)
           (st := {| world := w0; calls := calls st ++ [Call_all_scopes] |})
      as (tr & E & Q).
    + split; [apply no_publish_follows_pull|]; constructor.
    + intros l1 l2 [P1 F1] [P2 F2]. split.
      * apply publish_follows_pull_app; assumption.
      * apply Forall_app. split; assumption.
    + apply sweep_body_log.
    + exists tr. cbn [calls] in E. rewrite E, <- app_assoc.
      split; [reflexivity | exact Q].
  - exists []. cbn [snd calls]. split; [reflexivity|].
    split; [apply no_publish_follows_pull|]; constructor.
Qed.

(** X6: Whatever the collaborators return or raise and whatever the listing
    holds, in the calls of one sweep a notification is published only
    directly after the [check()], the [diff()] and the [pull()] of one
    scope, in this order, and to the publisher of that scope. *)
Theorem periodic_check_publishes_only_after_pull :
  forall (st : state W) (pre post : list call) (o n : Commit) (pub : Publisher),
    calls (snd (periodic_check C cfg ep st))
    = (calls st ++ pre ++ Call_publish_changed_directories o n pub :: post)%list ->
    exists pre' sid,
      pre = (pre' ++ [Call_check sid; Call_diff sid; Call_pull sid])%list
      /\ pub = ServerSideTopicPublisher ep sid.
Proof.
  intros st pre post o n pub E.
  destruct (sweep_log st) as (tr & Elog & Ptr & _).
  rewrite Elog in E. apply app_inv_head in E.
  assert (Pall : publish_follows_pull ep (Call_all_scopes :: tr)).
  { apply (publish_follows_pull_app (l1 := [Call_all_scopes])); [|exact Ptr].
    apply no_publish_follows_pull. repeat constructor. discriminate. }
  exact (Pall pre o n pub post E).
Qed.

(** X7: Whatever the collaborators return or raise, a sweep lists the
    registry once, first, and every later call is the creation of a
    puller, one of its [check()], [diff()] and [pull()], or a
    publication: the sweep never goes through the store to pull, add or
    read a scope, and never opens a clone or makes a bundle. *)
Theorem periodic_check_calls_only_pullers :
  forall st : state W,
  exists tr,
    calls (snd (periodic_check C cfg ep st))
    = (calls st ++ Call_all_scopes :: tr)%list
    /\ Forall (fun c => is_puller_call c = true) tr.
Proof.
  intros st. destruct (sweep_log st) as (tr & E & _ & F).
  exists tr. split; assumption.
Qed.

(** X8: A sweep over a listing in which no scope is polled returns after
    the listing: no puller is created and the world is the one the
    listing left. *)
Theorem periodic_check_without_polled_scope :
  forall (st : state W) (items : list scope_item) (w0 : W),
    store_all_scopes C (world st) = (Return items, w0) ->
    Forall unpolled_pair items ->
    periodic_check C cfg ep st = (Return tt, extend st w0 [Call_all_scopes]).
Proof.
  intros st items w0 Hall Hitems.
  erewrite periodic_check_runs_loop by exact Hall.
  generalize (extend st w0 [Call_all_scopes]). clear Hall.
  induction Hitems as [|item items (sid & scope & -> & Hpoll) _ IH]; intros st0.
  - reflexivity.
  - simpl. unfold Py.bind. erewrite body_not_polled by exact Hpoll.
    apply IH.
Qed.
End SweepLog.

Lemma periodic_check_publish_of_demo :
  exists pre' sid,
    [Call_all_scopes;
     Call_create_puller "/opal/scopes" Demo.demo;
     Call_check "demo"; Call_diff "demo"; Call_pull "demo"]
    = (pre' ++ [Call_check sid; Call_diff sid; Call_pull sid])%list
    /\ ServerSideTopicPublisher Demo.endpoint "demo"
       = ServerSideTopicPublisher Demo.endpoint sid.
Proof.
  apply (@periodic_check_publishes_only_after_pull
           _ _ Demo.C Demo.config Demo.endpoint (start Demo.w_behind)
           [Call_all_scopes;
            Call_create_puller "/opal/scopes" Demo.demo;
            Call_check "demo"; Call_diff "demo"; Call_pull "demo"]
           [] Demo.commit_c1 Demo.commit_c2
           (ServerSideTopicPublisher Demo.endpoint "demo")).
  reflexivity.
Defined.

Lemma periodic_check_of_quiet :
  Forall unpolled_pair [ScopeTuple "quiet" Demo.quiet]
  /\ periodic_check Demo.C Demo.config Demo.endpoint (start Demo.w_quiet)
     = (Return tt, extend (start Demo.w_quiet) Demo.w_quiet [Call_all_scopes]).
Proof.
  assert (H : Forall unpolled_pair [ScopeTuple "quiet" Demo.quiet]).
  { constructor; [|constructor].
    exists "quiet", Demo.quiet. split; reflexivity. }
  split; [exact H|].
  exact (@periodic_check_without_polled_scope
           _ _ Demo.C Demo.config Demo.endpoint (start Demo.w_quiet)
           [ScopeTuple "quiet" Demo.quiet] Demo.w_quiet eq_refl H).
Defined.

(** ** What the webhook can log *)


Section WebhookLog.
Variables W P : Type.
Variable C : Collaborators W P.
Variable cfg : Config.







(** X10: A validated push that matches none of the scope objects listed
    (none has one of the three URLs of the event as its source URL):
    after the validation and the listing no call is made, for no scope,
    and the handler answers [None]. *)
Theorem webhook_github_leaves_other_scopes :
  forall (request : Request) (push : PushWebHook) (st : state W)
         (valid : bool) (w1 w2 : W) (items : list scope_item),
    x_github_event request = Some "push" ->
    validate_github_signature_or_throw C request (x_hub_signature_256 request)
                                       (world st)
    = (Return valid, w1) ->
    store_all_scopes C w1 = (Return items, w2) ->
    Forall (other_scope_object [clone_url (repository push);
                                git_url (repository push);
                                ssh_url (repository push)]) items ->
    route_webhook_github C cfg request push st
    = (Return None,
       extend st w2 [Call_validate_github_signature
                       request (x_hub_signature_256 request);
                     Call_all_scopes]).
Proof.
  intros request push st valid w1 w2 items Hev Hval Hall Hitems.
  unfold route_webhook_github, webhook_github. rewrite Hev.
  rewrite String.eqb_refl. cbn [negb].
  run_call Hval. rewrite Hall. cbn [world calls]. cbv zeta.
  match goal with
  | |- context [Py.for_each items ?body ?s0] =>
      assert (Hloop : forall s, Py.for_each items body s = (Return tt, s))
  end.
  { clear Hall.
    induction Hitems as [|item items (scope & -> & Hnot) _ IH]; intros s.
    - reflexivity.
    - simpl. unfold Py.bind.
      rewrite (webhook_body_on_other_scope_object C cfg push _ _ s Hnot).
      apply IH. }
  rewrite Hloop. unfold Py.ret, extend. rewrite <- app_assoc. reflexivity.
Qed.

(** X11: When one of the two identifiers of the event cannot be made a
    commit (it is not hexadecimal, or not 20 bytes long), a matching
    scope object has already been pulled through the store and its
    clone opened when the body raises: the scope is pulled and nothing
    is published for it. *)
Theorem webhook_body_pulls_before_reading_commits :
  forall (push : PushWebHook) (urls : list string) (scope : Scope)
         (st : state W) (w1 : W) (repo : Repo) (w2 : W) (e : exn),
    let sid := scope_id scope in
    let path := os_path_join (os_path_join (BASE_DIR cfg) "scopes") sid in
    In (url (policy scope)) urls ->
    store_pull_scope C sid (world st) = (Return tt, w1) ->
    git_Repo C path w1 = (Return repo, w2) ->
    commit_of repo (before push) = Raise e
    \/ (exists o, commit_of repo (before push) = Return o
                  /\ commit_of repo (after push) = Raise e) ->
    webhook_github_body C cfg push urls (ScopeObject scope) st
    = (Raise e, extend st w2 [Call_pull_scope sid; Call_Repo path]).
Proof.
  intros push urls scope st w1 repo w2 e sid path Hin Hpull Hrepo Hbad.
  unfold webhook_github_body, Py.lift. unfold Py.bind at 1.
  cbn [getattr_policy]. rewrite (url_matches _ _ Hin).
  unfold Py.bind at 1. cbn [getattr_scope_id]. fold sid.
  run_call Hpull. fold path. rewrite Hrepo. cbn [world calls].
  unfold commit_of in Hbad. unfold extend. rewrite <- !app_assoc.
  destruct Hbad as [Ho | (o & Ho & Hn)].
  - destruct (bytes_fromhex (before push)) as [sha|e0].
    + rewrite Ho. reflexivity.
    + injection Ho as ->. reflexivity.
  - destruct (bytes_fromhex (before push)) as [sha|e0]; [|discriminate Ho].
    rewrite Ho.
    destruct (bytes_fromhex (after push)) as [sha'|e1].
    + rewrite Hn. reflexivity.
    + injection Hn as ->. reflexivity.
Qed.
End WebhookLog.


Lemma webhook_github_other_push :
  route_webhook_github ObjectListing.C Demo.config Demo.signed_push
                       ObjectListing.other_push (start Demo.w_behind)
  = (Return None,
     extend (start Demo.w_behind) Demo.w_behind
            [Call_validate_github_signature
               Demo.signed_push (x_hub_signature_256 Demo.signed_push);
             Call_all_scopes]).
Proof.
  apply (@webhook_github_leaves_other_scopes
           _ _ ObjectListing.C Demo.config Demo.signed_push
           ObjectListing.other_push (start Demo.w_behind)
           true Demo.w_behind Demo.w_behind [ScopeObject Demo.demo]);
    try reflexivity.
  constructor; [|constructor].
  exists Demo.demo. split; [reflexivity|].
  intros [H | [H | [H | []]]]; discriminate H.
Defined.

Lemma webhook_body_malformed_push :
  webhook_github_body Demo.C Demo.config ObjectListing.malformed_push
    [clone_url (repository ObjectListing.malformed_push)]
    (ScopeObject Demo.demo) (start Demo.w_behind)
  = (Raise (ValueError "non-hexadecimal number found in fromhex() arg"),
     extend (start Demo.w_behind) Demo.w_current
            [Call_pull_scope "demo"; Call_Repo "/opal/scopes/demo"]).
Proof.
  apply (@webhook_body_pulls_before_reading_commits
           _ _ Demo.C Demo.config ObjectListing.malformed_push
           [clone_url (repository ObjectListing.malformed_push)]
           Demo.demo (start Demo.w_behind) Demo.w_current Demo.demo_clone
           Demo.w_current
           (ValueError "non-hexadecimal number found in fromhex() arg")).
  - left. reflexivity.
  - reflexivity.
  - reflexivity.
  - left. reflexivity.
Defined.

(** ** Commit identifiers of forty hexadecimal digits *)




Section WebhookIds.
Variables W P : Type.
Variable C : Collaborators W P.
Variable cfg : Config.

End WebhookIds.


(** ** The directory of a clone *)

Lemma prefix_app :
  forall a b : string, String.prefix a (a ++ b) = true.
Proof.
  induction a as [|c a IH]; intros b; simpl; [destruct b; reflexivity|].
  destruct (ascii_dec c c) as [_|Hne]; [apply IH | contradiction Hne; reflexivity].
Qed.

Section ClonePath.
Variables W P : Type.
Variable C : Collaborators W P.
Variable cfg : Config.

(** X13: The clone [get_scope_policy] opens is the join of the base
    directory and the identifier of the scope the store returned.  For
    an identifier that does not start with a slash the path opened
    starts with the base directory; an identifier that is an absolute
    path replaces the base directory, and the clone is opened at the
    identifier itself. *)
Theorem get_scope_policy_clone_path :
  forall (sid : string) (base_hash : option string) (st : state W)
         (scope : Scope) (w1 : W),
    store_get_scope C sid (world st) = (Return scope, w1) ->
    exists path tail,
      calls (snd (get_scope_policy C cfg sid base_hash st))
      = (calls st ++ Call_get_scope sid :: Call_Repo path :: tail)%list
      /\ (String.prefix "/" (scope_id scope) = true -> path = scope_id scope)
      /\ (String.prefix "/" (scope_id scope) = false ->
          String.prefix (_get_base_dir cfg) path = true).
Proof.
  intros sid base_hash st scope w1 Hget.
  exists (os_path_join (_get_base_dir cfg) (scope_id scope)).
  unfold get_scope_policy. run_call Hget. cbv zeta.
  match goal with
  | |- context [git_Repo C ?p w1] =>
      destruct (git_Repo C p w1) as [[repo|e] w2]
  end; cbn [world calls snd].
  - match goal with
    | |- context [make_bundle C ?m repo base_hash w2] =>
        destruct (make_bundle C m repo base_hash w2) as [r w3]
    end; cbn [world calls snd].
    eexists. split; [rewrite <- !app_assoc; reflexivity|].
    unfold os_path_join. split; intros Hp; rewrite Hp; [reflexivity|].
    destruct (_ || _)%bool; apply prefix_app.
  - exists []. split; [rewrite <- !app_assoc; reflexivity|].
    unfold os_path_join. split; intros Hp; rewrite Hp; [reflexivity|].
    destruct (_ || _)%bool; apply prefix_app.
Qed.
End ClonePath.

Lemma get_scope_policy_rooted_scope :
  exists path tail,
    calls (snd (get_scope_policy Demo.C Demo.config "/etc/opal" None
                                 (start ObjectListing.w_rooted)))
    = (Call_get_scope "/etc/opal" :: Call_Repo path :: tail)%list
    /\ path = "/etc/opal".
Proof.
  destruct (@get_scope_policy_clone_path
              _ _ Demo.C Demo.config "/etc/opal" None
              (start ObjectListing.w_rooted) ObjectListing.rooted
              ObjectListing.w_rooted eq_refl)
    as (path & tail & Hlog & Habs & _).
  exists path, tail. split; [exact Hlog | apply Habs; reflexivity].
Defined.

(** ** The session of [preload_scopes] *)

Lemma closes_app :
  forall l1 l2 : list preload_call, closes (l1 ++ l2) = closes l1 + closes l2.
Proof.
  induction l1 as [|c l1 IH]; intros l2; [reflexivity|].
  destruct c; simpl; rewrite IH; reflexivity.
Qed.

Lemma releases_app :
  forall l1 l2 : list preload_call,
    releases (l1 ++ l2) = releases l1 + releases l2.
Proof.
  induction l1 as [|c l1 IH]; intros l2; [reflexivity|].
  destruct c; simpl; rewrite IH; reflexivity.
Qed.

Lemma closes_adds :
  forall l : list Scope, closes (map Pre_add_scope l) = 0.
Proof. induction l; simpl; auto. Qed.

Lemma releases_adds :
  forall l : list Scope, releases (map Pre_add_scope l) = 0.
Proof. induction l; simpl; auto. Qed.

Section PreloadSession.
Variables W Redis Store Session Resp Json : Type.
Variable PC : PreloadCollaborators W Redis Store Session Resp Json.

(** X14: once [preload_scopes] has opened its session, the session is
    closed exactly once, whatever the request, the parsing and the
    store do, and the close is the last call of the function but for the
    logging of a caught exception; when the request returned a response,
    the response is released exactly once. *)
Theorem preload_scopes_closes_session :
  forall (cfg : PreloadConfig) (st : pstate W) redis w1 store w2 session w3,
    let base := server_config cfg in
    let url := BACKEND_URL cfg ++ "/v1/scopes" in
    let final := pcalls (snd (preload_scopes PC cfg st)) in
    SCOPE_API_KEY base <> "" ->
    new_RedisDB PC (REDIS_URL cfg) (pworld st) = (Return redis, w1) ->
    new_ScopeStore PC (_get_base_dir base) redis w1 = (Return store, w2) ->
    new_ClientSession PC (preload_headers base) w2 = (Return session, w3) ->
    (exists before,
        final = (before ++ [Pre_close_session])%list
        \/ exists e, final = (before ++ [Pre_close_session; Pre_logger_catch e])%list)
    /\ closes final = closes (pcalls st) + 1
    /\ (forall resp w4,
           session_get PC session url w3 = (Return resp, w4) ->
           releases final = releases (pcalls st) + 1).
Proof.
  intros cfg st redis w1 store w2 session w3 base url final
         Hkey Hredis Hstore Hsession.
  subst final.
  destruct (preload_scopes PC cfg st) as [rf stf] eqn:Erun. cbn [fst snd].
  unfold preload_scopes, logger_catch, async_with, preload_from_response,
    Py.bind, Py.lift in Erun.
  unfold pinvoke at 1 in Erun. cbn [pworld pcalls] in Erun. rewrite Hredis in Erun.
  unfold pinvoke at 1 in Erun. cbn [pworld pcalls] in Erun. fold base in Erun.
  rewrite Hstore in Erun.
  destruct (String.eqb_spec (SCOPE_API_KEY base) "") as [E|_]; [contradiction|].
  cbv zeta in Erun.
  unfold pinvoke at 1 in Erun. cbn [pworld pcalls] in Erun. rewrite Hsession in Erun.
  unfold pinvoke at 1 in Erun. cbn [pworld pcalls] in Erun. fold url in Erun.
  destruct (session_get PC session url w3) as [[resp|eg] w4].
  - unfold pinvoke at 1 in Erun. cbn [pworld pcalls] in Erun.
    destruct (response_json PC resp w4) as [[json|e] w5].
    + destruct (parse_obj_as_scopes PC json) as [scopes|e].
      * match type of Erun with
        | context [Py.for_each scopes ?body ?s0] =>
            destruct (Py.for_each scopes body s0) as [rl stl] eqn:Eloop
        end.
        apply preload_loop_log in Eloop. destruct Eloop as (k & Hlog & _).
        cbn [pcalls] in Hlog.
        unfold pinvoke in Erun; cbn [pworld pcalls] in Erun;
      match type of Erun with
      | context [response_release PC resp ?w] =>
          destruct (response_release PC resp w) as [[u1|e1] w6]
      end;
      cbn [pworld pcalls] in Erun;
      destruct (session_close PC session w6) as [[u2|e2] w7];
      cbn [pworld pcalls] in Erun;
      try destruct rl as [[]|el];
      injection Erun as <- <-; cbn [pcalls]; try rewrite Hlog;
      (split;
       [eexists; first [left; reflexivity
                       | right; eexists; rewrite <- app_assoc; reflexivity]
       |split;
        [rewrite !closes_app, ?closes_adds; simpl; lia
        |intros resp' w4' _; rewrite !releases_app, ?releases_adds; simpl; lia]]).
      * unfold pinvoke in Erun; cbn [pworld pcalls] in Erun;
      match type of Erun with
      | context [response_release PC resp ?w] =>
          destruct (response_release PC resp w) as [[u1|e1] w6]
      end;
      cbn [pworld pcalls] in Erun;
      destruct (session_close PC session w6) as [[u2|e2] w7];
      cbn [pworld pcalls] in Erun;
      try destruct rl as [[]|el];
      injection Erun as <- <-; cbn [pcalls]; try rewrite Hlog;
      (split;
       [eexists; first [left; reflexivity
                       | right; eexists; rewrite <- app_assoc; reflexivity]
       |split;
        [rewrite !closes_app, ?closes_adds; simpl; lia
        |intros resp' w4' _; rewrite !releases_app, ?releases_adds; simpl; lia]]).
    + unfold pinvoke in Erun; cbn [pworld pcalls] in Erun;
      match type of Erun with
      | context [response_release PC resp ?w] =>
          destruct (response_release PC resp w) as [[u1|e1] w6]
      end;
      cbn [pworld pcalls] in Erun;
      destruct (session_close PC session w6) as [[u2|e2] w7];
      cbn [pworld pcalls] in Erun;
      try destruct rl as [[]|el];
      injection Erun as <- <-; cbn [pcalls]; try rewrite Hlog;
      (split;
       [eexists; first [left; reflexivity
                       | right; eexists; rewrite <- app_assoc; reflexivity]
       |split;
        [rewrite !closes_app, ?closes_adds; simpl; lia
        |intros resp' w4' _; rewrite !releases_app, ?releases_adds; simpl; lia]]).
  - unfold pinvoke in Erun. cbn [pworld pcalls] in Erun.
    destruct (session_close PC session w4) as [[u2|e2] w7];
      cbn [pworld pcalls] in Erun; injection Erun as <- <-; cbn [pcalls];
      (split;
       [eexists; right; eexists; rewrite <- app_assoc; reflexivity
       |split; [rewrite !closes_app; simpl; lia | intros resp' w4' H; discriminate H]]).
Qed.
End PreloadSession.

Lemma preload_scopes_closes_session_demo :
  closes (pcalls (snd (preload_scopes PreloadDemo.PC PreloadDemo.config
                                      (PreloadDemo.begin (Some "legacy")))))
  = 1
  /\ releases (pcalls (snd (preload_scopes PreloadDemo.PC PreloadDemo.config
                                           (PreloadDemo.begin (Some "legacy")))))
     = 1.
Proof.
  destruct (@preload_scopes_closes_session
              _ _ _ _ _ _ PreloadDemo.PC PreloadDemo.config
              (PreloadDemo.begin (Some "legacy"))
              tt (Some "legacy") tt (Some "legacy") tt (Some "legacy"))
    as (_ & Hc & Hr); try reflexivity; [discriminate|].
  split; [exact Hc | exact (Hr tt (Some "legacy") eq_refl)].
Defined.
